(** * The external signer service (external-signer/external-signer-service.js)

    A shallow embedding of the payout signer: the poll loop, the payout
    processor, the ledger connector, the queue fetcher, the webhook reporter
    and the manual trigger endpoint, followed by the properties of the
    specification proved about them.

    The service talks to three collaborators that are not part of the
    repository: the HTTP client ([fetch]), the ledger SDK ([xrpl]) and the
    JavaScript runtime.  They are gathered in a record [Env] of oracles whose
    answers may depend on everything that happened before (the trace), so a
    theorem quantified over [Env] holds for every deterministic behaviour of
    the outside world.  Every call to a collaborator is recorded in the
    trace together with its answer.

    The health endpoint and the boot sequence only read and initialise the
    state modelled here; they are left out. *)

From Stdlib Require Import ZArith List String Ascii Bool Lia DecimalString.
Import ListNotations.

Open Scope string_scope.
Open Scope Z_scope.

(** ** JavaScript values *)

(** The values the service handles: what [JSON.parse] produces, plus
    [undefined] and [NaN].  Numbers are the integers (a double is exact on
    them up to 2^53); fractional numbers are outside the model. *)
#[warnings="-register-all"]
Inductive value : Type :=
| VUndefined
| VNull
| VBool (b : bool)
| VNum (n : Z)
| VNaN
| VStr (s : string)
| VArr (items : list value)
| VObj (fields : list (string * value)).

(** ToBoolean. *)
Definition truthy (v : value) : bool :=
  match v with
  | VUndefined | VNull | VNaN => false
  | VBool b => b
  | VNum n => negb (n =? 0)
  | VStr s => negb (s =? "")%string
  | VArr _ | VObj _ => true
  end.

(** [v == null]. *)
Definition nullish (v : value) : bool :=
  match v with
  | VUndefined | VNull => true
  | _ => false
  end.

(** [a || b]. *)
Definition js_or (a b : value) : value := if truthy a then a else b.

Fixpoint lookup (k : string) (fields : list (string * value)) : value :=
  match fields with
  | [] => VUndefined
  | (k', v) :: rest => if (k =? k')%string then v else lookup k rest
  end.

(** [v.k] on a value that is neither [null] nor [undefined].  None of the
    property names the service reads ([id], [amount], [result],
    [engine_result], [tx_json], [hash], [tx_blob], ...) is defined on
    primitives or arrays, so only objects answer. *)
Definition get_prop (v : value) (k : string) : value :=
  match v with
  | VObj fields => lookup k fields
  | _ => VUndefined
  end.

(** [v?.k]. *)
Definition opt_chain (v : value) (k : string) : value :=
  if nullish v then VUndefined else get_prop v k.

Definition string_of_Z (z : Z) : string := NilZero.string_of_int (Z.to_int z).

Fixpoint join (sep : string) (l : list string) : string :=
  match l with
  | [] => ""
  | [x] => x
  | x :: rest => x ++ sep ++ join sep rest
  end.

(** ToString, as applied by [String(v)] and by template literals. *)
Fixpoint toString (v : value) : string :=
  match v with
  | VUndefined => "undefined"
  | VNull => "null"
  | VBool true => "true"
  | VBool false => "false"
  | VNum n => string_of_Z n
  | VNaN => "NaN"
  | VStr s => s
  | VArr items =>
      join "," (map (fun x => if nullish x then "" else toString x) items)
  | VObj _ => "[object Object]"
  end.

(** [s.slice(0, n)]. *)
Fixpoint slice0 (n : nat) (s : string) : string :=
  match n, s with
  | O, _ => ""
  | S _, EmptyString => ""
  | S n', String c rest => String c (slice0 n' rest)
  end.

(** ** Errors *)

(** What the collaborators and the runtime throw: [Error] objects. *)
Record error : Type := mkErr { err_name : string; err_message : string }.

(** [new Error(msg)]. *)
Definition Error (msg : string) : error := mkErr "Error" msg.
Definition TypeError (msg : string) : error := mkErr "TypeError" msg.

(** [Error.prototype.toString]. *)
Definition error_toString (e : error) : string :=
  if (err_name e =? "")%string then err_message e
  else if (err_message e =? "")%string then err_name e
  else err_name e ++ ": " ++ err_message e.

(** [String(err.message || err)]. *)
Definition message_or_error (e : error) : string :=
  if negb (err_message e =? "")%string then err_message e else error_toString e.

Inductive result (A : Type) : Type :=
| Ok (a : A)
| Throw (e : error).
Arguments Ok {A} a.
Arguments Throw {A} e.

(** ** Configuration: [process.env] *)

Record config : Type := mkConfig {
  SUPABASE_URL : option string;
  SUPABASE_SERVICE_ROLE_KEY : option string;
  SUPABASE_WEBHOOK_URL : option string;
  XRP_HOT_WALLET_SEED : option string;
  XRPL_SERVERS : option string;
  XRPL_SERVER : option string;
  POLLING_INTERVAL_MS_env : option string;
  MAX_CONCURRENT_env : option string;
  CONTROL_BEARER_TOKEN : option string
}.

(** A destructuring default applies when the variable is undefined. *)
Definition with_default (o : option string) (d : string) : string :=
  match o with
  | Some s => s
  | None => d
  end.

Definition POLLING_INTERVAL_MS (cfg : config) : string :=
  with_default (POLLING_INTERVAL_MS_env cfg) "5000".
Definition MAX_CONCURRENT (cfg : config) : string :=
  with_default (MAX_CONCURRENT_env cfg) "2".

(** An environment variable as a value, and inside a template literal. *)
Definition env_value (o : option string) : value :=
  match o with
  | Some s => VStr s
  | None => VUndefined
  end.
Definition interpolate (o : option string) : string := toString (env_value o).

(** ** The outside world *)

Record request : Type := mkRequest {
  req_url : string;
  req_method : string;
  req_headers : list (string * value);
  (** the object handed to [JSON.stringify], when there is a body *)
  req_body : option value
}.

Record response : Type := mkResponse {
  res_status : Z;
  res_text : result string;   (* await res.text() *)
  res_json : result value     (* await res.json() *)
}.

(** [res.ok]: the status is in the range 200-299. *)
Definition res_ok (r : response) : bool :=
  (200 <=? res_status r) && (res_status r <=? 299).

(** [new xrpl.Client(url)] *)
Record session : Type := mkSession { session_url : string }.

(** [xrpl.Wallet.fromSeed(seed)] *)
Record Wallet : Type := mkWallet { classicAddress : string }.

Inductive event : Type :=
| EvInFlight (n : Z)                                 (* inFlight is set to n *)
| EvFetch (req : request) (out : result response)    (* await fetch(url, init) *)
| EvConnect (url : string) (out : result unit)       (* new Client(url) and connect() *)
| EvXrpToDrops (arg : string) (out : result string)
| EvAutofill (tx : value) (out : result value)
| EvSign (prepared : value) (out : result value)
| EvSubmit (blob : value) (out : result value)
| EvConsoleLog (args : list value)
| EvConsoleError (args : list value).

Definition trace := list event.

Record Env : Type := mkEnv {
  fetch : trace -> request -> result response;
  client_connect : trace -> string -> result unit;
  client_isConnected : trace -> session -> bool;
  client_autofill : trace -> session -> value -> result value;
  client_submitAndWait : trace -> session -> value -> result value;
  wallet_sign : Wallet -> value -> result value;
  xrpToDrops : string -> result string;
  (** ToNumber on strings (the numeric literal grammar of the language) *)
  StringToNumber : string -> value
}.

(** ** Process state: the module-level [let] bindings *)

Record state : Type := mkState {
  client : option session;
  wallet : option Wallet;
  inFlight : Z;
  (** everything done so far *)
  history : trace;
  (** calls of [processOne] that were started and not awaited: each is
      suspended at its first [await] *)
  pending : list value
}.

Definition set_client (c : option session) (st : state) : state :=
  mkState c (wallet st) (inFlight st) (history st) (pending st).
Definition set_inFlight (n : Z) (st : state) : state :=
  mkState (client st) (wallet st) n (history st) (pending st).
Definition record (ev : event) (st : state) : state :=
  mkState (client st) (wallet st) (inFlight st) (history st ++ [ev])%list (pending st).
Definition suspend (row : value) (st : state) : state :=
  mkState (client st) (wallet st) (inFlight st) (history st) (pending st ++ [row])%list.

(** ** A state and exception monad for [async] functions run to completion *)

Definition M (A : Type) : Type := state -> result A * state.

Definition ret {A} (a : A) : M A := fun st => (Ok a, st).
Definition throw {A} (e : error) : M A := fun st => (Throw e, st).
Definition bind {A B} (m : M A) (k : A -> M B) : M B :=
  fun st =>
    match m st with
    | (Ok a, st') => k a st'
    | (Throw e, st') => (Throw e, st')
    end.

(** [try { m } catch (e) { h e }] *)
Definition try_catch {A} (m : M A) (h : error -> M A) : M A :=
  fun st =>
    match m st with
    | (Ok a, st') => (Ok a, st')
    | (Throw e, st') => h e st'
    end.

(** [try { m } finally { f }] *)
Definition try_finally {A} (m : M A) (f : M unit) : M A :=
  fun st =>
    match m st with
    | (r, st') =>
        match f st' with
        | (Ok _, st'') => (r, st'')
        | (Throw e, st'') => (Throw e, st'')
        end
    end.

Definition get_state : M state := fun st => (Ok st, st).
Definition modify (f : state -> state) : M unit := fun st => (Ok tt, f st).
Definition emit (ev : event) : M unit := modify (record ev).
Definition lift {A} (r : result A) : M A := fun st => (r, st).

Declare Scope js_scope.
Delimit Scope js_scope with js.
Notation "x <- m ;; k" := (bind m (fun x => k))
  (at level 61, m at next level, right associativity) : js_scope.
Notation "m ;; k" := (bind m (fun _ => k))
  (at level 61, right associativity) : js_scope.
Open Scope js_scope.

(** A call to a collaborator: ask the oracle, record call and answer. *)
Definition call {A} (ask : trace -> result A) (ev : result A -> event) : M A :=
  fun st =>
    let r := ask (history st) in
    (r, record (ev r) st).

Definition console_log (args : list value) : M unit := emit (EvConsoleLog args).
Definition console_error (args : list value) : M unit := emit (EvConsoleError args).

(** [inFlight++] and [inFlight--] *)
Definition inFlight_incr : M unit :=
  fun st => let n := inFlight st + 1 in (Ok tt, record (EvInFlight n) (set_inFlight n st)).
Definition inFlight_decr : M unit :=
  fun st => let n := inFlight st - 1 in (Ok tt, record (EvInFlight n) (set_inFlight n st)).

(** ** String helpers of the runtime *)

(** White space removed by [trim], on the ASCII range. *)
Definition is_space (c : ascii) : bool :=
  let n := nat_of_ascii c in
  ((9 <=? n)%nat && (n <=? 13)%nat) || (n =? 32)%nat.

Fixpoint trimStart (s : string) : string :=
  match s with
  | EmptyString => EmptyString
  | String c rest => if is_space c then trimStart rest else s
  end.

Fixpoint trimEnd (s : string) : string :=
  match s with
  | EmptyString => EmptyString
  | String c rest =>
      let r := trimEnd rest in
      if is_space c && (r =? "")%string then EmptyString else String c r
  end.

Definition trim (s : string) : string := trimEnd (trimStart s).

(** [s.split(",")] *)
Fixpoint split_comma (s : string) : list string :=
  match s with
  | EmptyString => [EmptyString]
  | String c rest =>
      if (c =? ",")%char then EmptyString :: split_comma rest
      else match split_comma rest with
           | [] => [String c EmptyString]
           | h :: t => String c h :: t
           end
  end.

(** [.filter(Boolean)] on strings *)
Definition nonempty (s : string) : bool := negb (s =? "")%string.

(** [a || b] where [a] is [undefined] or an array: an array is an object,
    hence truthy even when it is empty. *)
Definition array_or {A} (a : option (list A)) (b : list A) : list A :=
  match a with
  | Some l => l
  | None => b
  end.

(** [[x].filter(Boolean)] for an environment variable [x] *)
Definition singleton_filtered (x : option string) : list string :=
  match x with
  | Some s => filter nonempty [s]
  | None => []
  end.

(** [const WS_DEFAULTS =
      (XRPL_SERVERS?.split(",").map(s => s.trim()).filter(Boolean)) ||
      ([XRPL_SERVER].filter(Boolean)) ||
      ["wss://xrplcluster.com", "wss://s2.ripple.com", "wss://s1.ripple.com"]] *)
Definition WS_DEFAULTS (cfg : config) : list string :=
  array_or
    (option_map (fun s => filter nonempty (map trim (split_comma s))) (XRPL_SERVERS cfg))
    (array_or
       (Some (singleton_filtered (XRPL_SERVER cfg)))
       ["wss://xrplcluster.com"; "wss://s2.ripple.com"; "wss://s1.ripple.com"]).

(** ** The service *)

Section Service.

Variable env : Env.
Variable cfg : config.

(** [Number(v)] *)
Definition Number (v : value) : value :=
  match v with
  | VUndefined => VNaN
  | VNull => VNum 0
  | VBool true => VNum 1
  | VBool false => VNum 0
  | VNum n => VNum n
  | VNaN => VNaN
  | VStr s => StringToNumber env s
  | VArr _ | VObj _ => StringToNumber env (toString v)
  end.

(** [n >= v] for a number [n] and a numeric value [v] *)
Definition ge_number (n : Z) (v : value) : bool :=
  match v with
  | VNum c => c <=? n
  | _ => false
  end.

(** [v === s] for a string literal [s] *)
Definition is_string (v : value) (s : string) : bool :=
  match v with
  | VStr s' => (s' =? s)%string
  | _ => false
  end.

(** [v.k], which throws on [null] and [undefined] *)
Definition prop (v : value) (k : string) : M value :=
  if nullish v then
    throw (TypeError ("Cannot read properties of " ++ toString v
                      ++ " (reading '" ++ k ++ "')"))
  else ret (get_prop v k).

Definition supabaseHeaders : list (string * value) :=
  [ ("apikey", env_value (SUPABASE_SERVICE_ROLE_KEY cfg));
    ("Authorization", VStr ("Bearer " ++ interpolate (SUPABASE_SERVICE_ROLE_KEY cfg)));
    ("Content-Type", VStr "application/json") ].

Definition do_fetch (req : request) : M response :=
  call (fun h => fetch env h req) (EvFetch req).

(** One turn of the loop of [connectClient]; [true] stands for the
    [return] inside the [try]. *)
Definition connect_one (url : string) : M bool :=
  try_catch
    (call (fun h => client_connect env h url) (EvConnect url) ;;
     modify (set_client (Some (mkSession url))) ;;
     console_log [VStr "[XRPL] Connected:"; VStr url] ;;
     ret true)
    (fun e =>
       console_error [VStr "[XRPL] Failed:"; VStr url; VStr (err_message e)] ;;
       ret false).

Fixpoint connect_loop (urls : list string) : M unit :=
  match urls with
  | [] => throw (Error "No XRPL server reachable")
  | url :: rest =>
      returned <- connect_one url ;;
      if returned then ret tt else connect_loop rest
  end.

Definition connectClient : M unit := connect_loop (WS_DEFAULTS cfg).

Definition queued_url (limit : value) : string :=
  interpolate (SUPABASE_URL cfg)
  ++ "/rest/v1/payout_requests?status=eq.queued&chain=eq.XRP&order=requested_at.asc&limit="
  ++ toString limit.

Definition queued_request (limit : value) : request :=
  mkRequest (queued_url limit) "GET" supabaseHeaders None.

Definition fetchQueued (limit : value) : M value :=
  let limit := match limit with VUndefined => VNum 5 | _ => limit end in
  res <- do_fetch (queued_request limit) ;;
  if negb (res_ok res) then
    t <- lift (res_text res) ;;
    throw (Error ("Fetch queued failed: " ++ string_of_Z (res_status res) ++ " " ++ t))
  else lift (res_json res).

Definition webhook_request (body : value) : request :=
  mkRequest (interpolate (SUPABASE_WEBHOOK_URL cfg)) "POST"
            [("Content-Type", VStr "application/json")] (Some body).

Definition postWebhook (body : value) : M value :=
  res <- do_fetch (webhook_request body) ;;
  if negb (res_ok res) then
    t <- lift (res_text res) ;;
    throw (Error ("Webhook failed: " ++ string_of_Z (res_status res) ++ " " ++ t))
  else try_catch (lift (res_json res)) (fun _ => ret (VObj [("ok", VBool true)])).

(** The three reports of [processOne]. *)
Definition processing_body (id webhook_secret : value) : value :=
  VObj [("request_id", id); ("status", VStr "processing");
        ("webhook_secret", webhook_secret)].

Definition completed_body (id txHash webhook_secret : value) : value :=
  VObj [("request_id", id); ("status", VStr "completed"); ("tx_id", txHash);
        ("webhook_secret", webhook_secret)].

Definition failed_body (id : value) (error_message : string) (webhook_secret : value) : value :=
  VObj [("request_id", id); ("status", VStr "failed");
        ("error_message", VStr error_message); ("webhook_secret", webhook_secret)].

(** [wallet.member] and [client.member]: the binding must hold an object. *)
Definition the_wallet (member : string) : M Wallet :=
  st <- get_state ;;
  match wallet st with
  | Some w => ret w
  | None => throw (TypeError ("Cannot read properties of undefined (reading '"
                              ++ member ++ "')"))
  end.

Definition the_client (member : string) : M session :=
  st <- get_state ;;
  match client st with
  | Some c => ret c
  | None => throw (TypeError ("Cannot read properties of undefined (reading '"
                              ++ member ++ "')"))
  end.

(** The payment of [processOne]:
    [{ TransactionType, Account, Amount, Destination, ...DestinationTag }] *)
Definition payment (account drops : string) (wallet_address destination_tag : value) : value :=
  VObj ([("TransactionType", VStr "Payment");
         ("Account", VStr account);
         ("Amount", VStr drops);
         ("Destination", wallet_address)]
        ++ (if negb (nullish destination_tag)
            then [("DestinationTag", Number destination_tag)]
            else []))%list.

Definition engine_of (result : value) : value :=
  js_or (opt_chain (opt_chain result "result") "engine_result")
        (opt_chain result "engine_result").

Definition txHash_of (result : value) : value :=
  js_or (opt_chain (opt_chain (opt_chain result "result") "tx_json") "hash")
        (opt_chain (opt_chain result "tx_json") "hash").

Definition engine_message (engine : value) : string :=
  "Engine result: " ++ toString (js_or engine (VStr "unknown")).

(** The [try] block of [processOne]. *)
Definition processOne_try (row : value) : M unit :=
  (if nullish row then
     throw (TypeError ("Cannot destructure property 'id' of 'row' as it is "
                       ++ toString row ++ "."))
   else ret tt) ;;
  let id := get_prop row "id" in
  let wallet_address := get_prop row "wallet_address" in
  let amount := get_prop row "amount" in
  let destination_tag := get_prop row "destination_tag" in
  let webhook_secret := get_prop row "webhook_secret" in
  postWebhook (processing_body id webhook_secret) ;;
  w <- the_wallet "classicAddress" ;;
  drops <- call (fun _ => xrpToDrops env (toString amount)) (EvXrpToDrops (toString amount)) ;;
  let tx := payment (classicAddress w) drops wallet_address destination_tag in
  c <- the_client "autofill" ;;
  prepared <- call (fun h => client_autofill env h c tx) (EvAutofill tx) ;;
  w <- the_wallet "sign" ;;
  signed <- call (fun _ => wallet_sign env w prepared) (EvSign prepared) ;;
  c <- the_client "submitAndWait" ;;
  tx_blob <- prop signed "tx_blob" ;;
  result <- call (fun h => client_submitAndWait env h c tx_blob) (EvSubmit tx_blob) ;;
  let engine := engine_of result in
  let txHash := txHash_of result in
  (if negb (is_string engine "tesSUCCESS") then throw (Error (engine_message engine))
   else ret tt) ;;
  postWebhook (completed_body id txHash webhook_secret) ;;
  console_log [VStr "[PAYOUT] Success"; id; txHash].

(** The [catch (err)] block of [processOne]. *)
Definition processOne_catch (row : value) (err : error) : M unit :=
  console_error [VStr "[PAYOUT] Failed"; opt_chain row "id"; VStr (err_message err)] ;;
  try_catch
    (id <- prop row "id" ;;
     let error_message := slice0 500 (message_or_error err) in
     webhook_secret <- prop row "webhook_secret" ;;
     postWebhook (failed_body id error_message webhook_secret) ;;
     ret tt)
    (fun e =>
       console_error [VStr "[WEBHOOK] Error reporting failure:"; VStr (err_message e)]).

(** [processOne] after its [inFlight++]: [try], [catch] and [finally]. *)
Definition processOne_attempt (row : value) : M unit :=
  try_finally (try_catch (processOne_try row) (processOne_catch row)) inFlight_decr.

Definition processOne (row : value) : M unit :=
  inFlight_incr ;;
  processOne_attempt row.

(** [processOne(row)] called and not awaited: the call runs up to its first
    [await] and the rest, [processOne_attempt row], is left for later.  That
    first [await] waits for the answer to the report of "processing", right
    after [inFlight++]; the trace pairs a call with its answer, so the report
    is recorded when the rest runs.  Only a row that is [null] or
    [undefined] never reaches an [await]: its call is over when it returns. *)
Definition processOne_start (row : value) : M unit :=
  if nullish row then processOne row
  else inFlight_incr ;; modify (suspend row).

(** [for (const row of rows)]: arrays and strings are iterable. *)
Fixpoint chars (s : string) : list value :=
  match s with
  | EmptyString => []
  | String c rest => VStr (String c EmptyString) :: chars rest
  end.

Definition iterate (rows : value) : M (list value) :=
  match rows with
  | VArr items => ret items
  | VStr s => ret (chars s)
  | _ => throw (TypeError "rows is not iterable")
  end.

(** [Number(MAX_CONCURRENT)] *)
Definition cap : value := Number (VStr (MAX_CONCURRENT cfg)).

(** The body of the [for] loop of [pollLoop]. *)
Fixpoint dispatch (rows : list value) : M unit :=
  match rows with
  | [] => ret tt
  | row :: rest =>
      st <- get_state ;;
      if ge_number (inFlight st) cap then ret tt
      else processOne_start row ;; dispatch rest
  end.

(** [!client || !client.isConnected()] *)
Definition needs_connect (st : state) : bool :=
  match client st with
  | None => true
  | Some c => negb (client_isConnected env (history st) c)
  end.

(** [pollLoop] once the connection is there: the check of the cap, the
    query of the queue and the dispatch. *)
Definition poll_queue : M unit :=
  st <- get_state ;;
  if ge_number (inFlight st) cap then ret tt
  else
    try_catch
      (rows <- fetchQueued cap ;;
       items <- iterate rows ;;
       dispatch items)
      (fun e => console_error [VStr "[POLL] error:"; VStr (err_message e)]).

Definition pollLoop : M unit :=
  st <- get_state ;;
  go_on <- (if needs_connect st then
              try_catch (connectClient ;; ret true)
                        (fun e =>
                           console_error [VStr "[XRPL] reconnect failed:";
                                          VStr (err_message e)] ;;
                           ret false)
            else ret true) ;;
  if negb go_on then ret tt
  else poll_queue.

(** ** The manual trigger: [POST /process] *)

Inductive callback : Type := CbPollLoop.

(** [setTimeout(callback, delay)] *)
Record timer : Type := mkTimer { timer_callback : callback; timer_delay : Z }.

Record http_reply : Type := mkReply { reply_status : Z; reply_json : value }.

(** The handler, given [req.headers.authorization]; it returns what it
    sends and the timers it sets. *)
Definition process_handler (authorization : option string) : http_reply * list timer :=
  let unauthorized :=
    if truthy (env_value (CONTROL_BEARER_TOKEN cfg)) then
      let auth := js_or (env_value authorization) (VStr "") in
      negb (is_string auth ("Bearer " ++ interpolate (CONTROL_BEARER_TOKEN cfg)))
    else false in
  if unauthorized then
    (mkReply 401 (VObj [("ok", VBool false); ("error", VStr "Unauthorized")]), [])
  else
    (mkReply 200 (VObj [("ok", VBool true); ("started", VBool true)]),
     [mkTimer CbPollLoop 50]).

End Service.

(** ** Reading traces *)

(** What a computation adds to the history. *)
Definition trace_of {A} (m : M A) (st : state) : trace :=
  skipn (List.length (history st)) (history (snd (m st))).

Definition outcome_of {A} (m : M A) (st : state) : result A := fst (m st).

(** The bodies posted, in order. *)
Definition posted (tr : trace) : list value :=
  flat_map (fun ev =>
              match ev with
              | EvFetch req _ =>
                  match req_body req with
                  | Some body => [body]
                  | None => []
                  end
              | _ => []
              end) tr.

Definition has_status (s : string) (body : value) : bool :=
  match get_prop body "status" with
  | VStr s' => (s' =? s)%string
  | _ => false
  end.

Definition posted_with (s : string) (tr : trace) : list value :=
  filter (has_status s) (posted tr).

(** The steps that build, prepare, sign and submit the payment. *)
Definition is_ledger_step (ev : event) : bool :=
  match ev with
  | EvXrpToDrops _ _ | EvAutofill _ _ | EvSign _ _ | EvSubmit _ _ => true
  | _ => false
  end.

Definition ledger_steps (tr : trace) : trace := filter is_ledger_step tr.

Definition is_counter_write (ev : event) : bool :=
  match ev with
  | EvInFlight _ => true
  | _ => false
  end.

(** [postWebhook] throws on this answer of [fetch]. *)
Definition post_failed (out : result response) : bool :=
  match out with
  | Throw _ => true
  | Ok res => negb (res_ok res)
  end.

(** ** The runs of [processOne], path by path *)

(** A state with more history. *)
Definition extend (tr : trace) (st : state) : state :=
  mkState (client st) (wallet st) (inFlight st) (history st ++ tr)%list (pending st).

(** The state in which the attempt of [processOne] runs: after [inFlight++]. *)
Definition started (st : state) : state :=
  mkState (client st) (wallet st) (inFlight st + 1)
          (history st ++ [EvInFlight (inFlight st + 1)])%list (pending st).

(** The state [processOne] leaves when its attempt did [tr]. *)
Definition finished (tr : trace) (st : state) : state :=
  mkState (client st) (wallet st) (inFlight st)
          (history st ++ EvInFlight (inFlight st + 1) :: tr ++ [EvInFlight (inFlight st)])%list
          (pending st).

Section Paths.

Variable env : Env.
Variable cfg : config.

(** What [postWebhook] returns on an answer of [fetch]. *)
Definition postWebhook_result (out : result response) : result value :=
  match out with
  | Throw e => Throw e
  | Ok res =>
      if negb (res_ok res) then
        match res_text res with
        | Ok t => Throw (Error ("Webhook failed: " ++ string_of_Z (res_status res) ++ " " ++ t))
        | Throw e => Throw e
        end
      else match res_json res with
           | Ok v => Ok v
           | Throw _ => Ok (VObj [("ok", VBool true)])
           end
  end.

Variable row : value.

Definition row_id : value := get_prop row "id".
Definition row_secret : value := get_prop row "webhook_secret".
Definition row_amount : string := toString (get_prop row "amount").

Definition processing_report : request :=
  webhook_request cfg (processing_body row_id row_secret).

Definition completed_report (result : value) : request :=
  webhook_request cfg (completed_body row_id (txHash_of result) row_secret).

Definition failed_report (err : error) : request :=
  webhook_request cfg (failed_body row_id (slice0 500 (message_or_error err)) row_secret).

Definition row_payment (w : Wallet) (drops : string) : value :=
  payment env (classicAddress w) drops
          (get_prop row "wallet_address") (get_prop row "destination_tag").

Definition payout_failed_log (err : error) : event :=
  EvConsoleError [VStr "[PAYOUT] Failed"; opt_chain row "id"; VStr (err_message err)].

Definition report_failed_log (e : error) : event :=
  EvConsoleError [VStr "[WEBHOOK] Error reporting failure:"; VStr (err_message e)].

(** The steps of a payout up to the answer of the ledger. *)
Definition ledger_events (out1 : result response) (w : Wallet) (drops : string)
    (prepared signed result : value) : trace :=
  [ EvFetch processing_report out1;
    EvXrpToDrops row_amount (Ok drops);
    EvAutofill (row_payment w drops) (Ok prepared);
    EvSign prepared (Ok signed);
    EvSubmit (get_prop signed "tx_blob") (Ok result) ].

(** [fetch], asked [req] after [h], answers [out]. *)
Definition answers (h : trace) (req : request) (out : result response) : Prop :=
  fetch env h req = out.

Definition reported (st : state) (out1 : result response) : Prop :=
  nullish row = false /\
  answers (history st) processing_report out1 /\
  post_failed out1 = false.

Definition built (st : state) out1 w drops : Prop :=
  reported st out1 /\ wallet st = Some w /\ xrpToDrops env row_amount = Ok drops.

Definition autofilled (st : state) out1 w drops c prepared : Prop :=
  built st out1 w drops /\ client st = Some c /\
  client_autofill env
    (history st ++ [EvFetch processing_report out1; EvXrpToDrops row_amount (Ok drops)])%list
    c (row_payment w drops) = Ok prepared.

Definition was_signed (st : state) out1 w drops c prepared signed : Prop :=
  autofilled st out1 w drops c prepared /\
  wallet_sign env w prepared = Ok signed /\ nullish signed = false.

Definition submitted (st : state) out1 w drops c prepared signed result : Prop :=
  was_signed st out1 w drops c prepared signed /\
  client_submitAndWait env
    (history st ++ firstn 4 (ledger_events out1 w drops prepared signed VUndefined))%list
    c (get_prop signed "tx_blob") = Ok result.

(** The [try] block from state [st]: how it ends and what it does. *)
Inductive try_path (st : state) : result unit -> trace -> Prop :=
| path_no_row :
    nullish row = true ->
    try_path st (Throw (TypeError ("Cannot destructure property 'id' of 'row' as it is "
                                   ++ toString row ++ "."))) []
| path_processing_failed out1 e :
    nullish row = false ->
    answers (history st) processing_report out1 ->
    post_failed out1 = true ->
    postWebhook_result out1 = Throw e ->
    try_path st (Throw e) [EvFetch processing_report out1]
| path_no_wallet out1 :
    reported st out1 -> wallet st = None ->
    try_path st
      (Throw (TypeError "Cannot read properties of undefined (reading 'classicAddress')"))
      [EvFetch processing_report out1]
| path_amount_rejected out1 w e :
    reported st out1 -> wallet st = Some w -> xrpToDrops env row_amount = Throw e ->
    try_path st (Throw e) [EvFetch processing_report out1; EvXrpToDrops row_amount (Throw e)]
| path_no_client out1 w drops :
    built st out1 w drops -> client st = None ->
    try_path st
      (Throw (TypeError "Cannot read properties of undefined (reading 'autofill')"))
      [EvFetch processing_report out1; EvXrpToDrops row_amount (Ok drops)]
| path_autofill_failed out1 w drops c e :
    built st out1 w drops -> client st = Some c ->
    client_autofill env
      (history st ++ [EvFetch processing_report out1; EvXrpToDrops row_amount (Ok drops)])%list
      c (row_payment w drops) = Throw e ->
    try_path st (Throw e)
      [EvFetch processing_report out1; EvXrpToDrops row_amount (Ok drops);
       EvAutofill (row_payment w drops) (Throw e)]
| path_sign_failed out1 w drops c prepared e :
    autofilled st out1 w drops c prepared ->
    wallet_sign env w prepared = Throw e ->
    try_path st (Throw e)
      [EvFetch processing_report out1; EvXrpToDrops row_amount (Ok drops);
       EvAutofill (row_payment w drops) (Ok prepared); EvSign prepared (Throw e)]
| path_no_blob out1 w drops c prepared signed :
    autofilled st out1 w drops c prepared ->
    wallet_sign env w prepared = Ok signed -> nullish signed = true ->
    try_path st
      (Throw (TypeError ("Cannot read properties of " ++ toString signed
                         ++ " (reading 'tx_blob')")))
      [EvFetch processing_report out1; EvXrpToDrops row_amount (Ok drops);
       EvAutofill (row_payment w drops) (Ok prepared); EvSign prepared (Ok signed)]
| path_submit_failed out1 w drops c prepared signed e :
    was_signed st out1 w drops c prepared signed ->
    client_submitAndWait env
      (history st ++ firstn 4 (ledger_events out1 w drops prepared signed VUndefined))%list
      c (get_prop signed "tx_blob") = Throw e ->
    try_path st (Throw e)
      [EvFetch processing_report out1; EvXrpToDrops row_amount (Ok drops);
       EvAutofill (row_payment w drops) (Ok prepared); EvSign prepared (Ok signed);
       EvSubmit (get_prop signed "tx_blob") (Throw e)]
| path_engine_failure out1 w drops c prepared signed result :
    submitted st out1 w drops c prepared signed result ->
    is_string (engine_of result) "tesSUCCESS" = false ->
    try_path st (Throw (Error (engine_message (engine_of result))))
      (ledger_events out1 w drops prepared signed result)
| path_completed_failed out1 w drops c prepared signed result out2 e :
    submitted st out1 w drops c prepared signed result ->
    is_string (engine_of result) "tesSUCCESS" = true ->
    answers (history st ++ ledger_events out1 w drops prepared signed result)%list
            (completed_report result) out2 ->
    post_failed out2 = true ->
    postWebhook_result out2 = Throw e ->
    try_path st (Throw e)
      (ledger_events out1 w drops prepared signed result
       ++ [EvFetch (completed_report result) out2])%list
| path_success out1 w drops c prepared signed result out2 :
    submitted st out1 w drops c prepared signed result ->
    is_string (engine_of result) "tesSUCCESS" = true ->
    answers (history st ++ ledger_events out1 w drops prepared signed result)%list
            (completed_report result) out2 ->
    post_failed out2 = false ->
    try_path st (Ok tt)
      (ledger_events out1 w drops prepared signed result
       ++ [EvFetch (completed_report result) out2;
           EvConsoleLog [VStr "[PAYOUT] Success"; row_id; txHash_of result]])%list.

(** The [catch (err)] block from state [st]; it always completes. *)
Inductive catch_path (st : state) (err : error) : trace -> Prop :=
| catch_no_row :
    nullish row = true ->
    catch_path st err
      [payout_failed_log err;
       report_failed_log (TypeError ("Cannot read properties of " ++ toString row
                                     ++ " (reading 'id')"))]
| catch_reported out3 :
    nullish row = false ->
    answers (history st ++ [payout_failed_log err])%list (failed_report err) out3 ->
    post_failed out3 = false ->
    catch_path st err [payout_failed_log err; EvFetch (failed_report err) out3]
| catch_report_failed out3 e :
    nullish row = false ->
    answers (history st ++ [payout_failed_log err])%list (failed_report err) out3 ->
    post_failed out3 = true ->
    postWebhook_result out3 = Throw e ->
    catch_path st err
      [payout_failed_log err; EvFetch (failed_report err) out3; report_failed_log e].

(** [try] and [catch] together: how the [try] block ended, and what both did. *)
Inductive attempt_path (st : state) : result unit -> trace -> Prop :=
| attempt_done tr :
    try_path st (Ok tt) tr -> attempt_path st (Ok tt) tr
| attempt_caught err tr1 tr2 :
    try_path st (Throw err) tr1 ->
    catch_path (extend tr1 st) err tr2 ->
    attempt_path st (Throw err) (tr1 ++ tr2)%list.

End Paths.

(** ** Reading the reports of failure *)

(** A report that ends a payout. *)
Definition terminal (body : value) : bool :=
  has_status "completed" body || has_status "failed" body.

(** After the post [ev] there is one [console.error] and the release of the
    slot, and nothing else. *)
Definition logged_and_swallowed (tr : trace) (ev : event) (n : Z) : Prop :=
  exists before args, tr = (before ++ [ev; EvConsoleError args; EvInFlight n])%list.

(** The [error_message] of every "failed" report. *)
Definition failure_messages (tr : trace) : list value :=
  map (fun body => get_prop body "error_message") (posted_with "failed" tr).

(** Every terminal report whose post fails is logged and swallowed. *)
Definition terminal_failures_swallowed (env : Env) (cfg : config) (row : value)
    (st : state) : Prop :=
  forall req out body,
    In (EvFetch req out) (trace_of (processOne env cfg row) st) ->
    req_body req = Some body -> terminal body = true -> post_failed out = true ->
    logged_and_swallowed (trace_of (processOne env cfg row) st) (EvFetch req out)
                         (inFlight st).

(** The "failed" report carries the first 500 characters of the message of
    the error caught. *)
Definition failure_message_is_message (env : Env) (cfg : config) (row : value)
    (st : state) : Prop :=
  forall err,
    outcome_of (processOne_try env cfg row) (started st) = Throw err ->
    forall m, In m (failure_messages (trace_of (processOne env cfg row) st)) ->
              m = VStr (slice0 500 (err_message err)).

(** ** Reading the connections *)

Definition connects (tr : trace) : list (string * result unit) :=
  flat_map (fun ev =>
              match ev with
              | EvConnect url out => [(url, out)]
              | _ => []
              end) tr.

Definition refused (attempt : string * result unit) : bool :=
  match snd attempt with
  | Throw _ => true
  | Ok _ => false
  end.

Definition fetches (tr : trace) : list request :=
  flat_map (fun ev =>
              match ev with
              | EvFetch req _ => [req]
              | _ => []
              end) tr.

(** A row that can be destructured. *)
Definition live (row : value) : bool := negb (nullish row).

(** The rows the loop of [pollLoop] goes through, by what [fetchQueued] gave. *)
Definition rows_of (r : result value) : list value :=
  match r with
  | Ok (VArr items) => items
  | Ok (VStr s) => chars s
  | _ => []
  end.

(** The rows that get a slot when [n] payouts are in flight and the cap is [k]. *)
Definition taken (k n : Z) (rows : list value) : list value :=
  firstn (Z.to_nat (k - n)) (filter live rows).

(** The state after [started] rows were dispatched and [tr] was done. *)
Definition after_dispatch (st : state) (tr : trace) (started : list value) : state :=
  mkState (client st) (wallet st) (inFlight st + Z.of_nat (List.length started))
          (history st ++ tr)%list (pending st ++ started)%list.

(** The state in which [pollLoop] looks at the queue. *)
Definition connected_state (env : Env) (cfg : config) (st : state) : state :=
  if needs_connect env st then snd (connectClient env cfg st) else st.

(** ** A scripted world, for concrete runs *)

Module Scenario.

Definition is_digit (c : ascii) : bool :=
  let n := nat_of_ascii c in (48 <=? n)%nat && (n <=? 57)%nat.

Fixpoint all_digits (s : string) : bool :=
  match s with
  | EmptyString => true
  | String c rest => is_digit c && all_digits rest
  end.

Fixpoint strip_zeros (s : string) : string :=
  match s with
  | String c (String _ _ as rest) => if (c =? "0")%char then strip_zeros rest else s
  | _ => s
  end.

(** [xrpl.xrpToDrops] on whole amounts: six more digits. *)
Definition whole_xrpToDrops (s : string) : result string :=
  if nonempty s && all_digits s then Ok (strip_zeros (s ++ "000000"))
  else Throw (mkErr "ValidationError" ("xrpToDrops: invalid value '" ++ s ++ "'")).

(** ToNumber on strings of digits. *)
Definition decimal_number (s : string) : value :=
  match NilZero.uint_of_string s with
  | Some u => VNum (Z.of_uint u)
  | None => VNaN
  end.

Definition http (status : Z) (text : string) (json : result value) : result response :=
  Ok (mkResponse status (Ok text) json).

Definition no_json : result value := Throw (mkErr "SyntaxError" "Unexpected end of JSON input").

Definition autofill_fields (tx : value) : value :=
  match tx with
  | VObj fields =>
      VObj (fields ++ [("Fee", VStr "12"); ("Sequence", VNum 7);
                       ("LastLedgerSequence", VNum 90000020)])%list
  | _ => tx
  end.

(** The world: [hook] answers the webhook by the status posted, [queue]
    answers the query of the queue, [ledger] answers the submission,
    [autofill] is the answer of the ledger to the preparation; the endpoint
    "wss://down.example" refuses connections. *)
Definition world (hook : string -> result response) (queue : result response)
    (autofill : value -> result value) (ledger : result value) : Env :=
  mkEnv
    (fun _ req =>
       match req_body req with
       | Some body => hook (toString (get_prop body "status"))
       | None => queue
       end)
    (fun _ url =>
       if (url =? "wss://down.example")%string then Throw (Error "connect ECONNREFUSED")
       else Ok tt)
    (fun _ _ => true)
    (fun _ _ tx => autofill tx)
    (fun _ _ _ => ledger)
    (fun _ _ => Ok (VObj [("tx_blob", VStr "120000228000000024"); ("hash", VStr "ABC123")]))
    whole_xrpToDrops
    decimal_number.

Definition cfg : config :=
  mkConfig (Some "https://db.example") (Some "service-key")
           (Some "https://db.example/functions/v1/xrp-payout-webhook")
           (Some "sEdSEED") None (Some "wss://ledger.example") None None
           (Some "control-token").

(** No endpoint configured at all. *)
Definition cfg_no_endpoint : config :=
  mkConfig (Some "https://db.example") (Some "service-key")
           (Some "https://db.example/functions/v1/xrp-payout-webhook")
           (Some "sEdSEED") None None None None None.

(** Two endpoints, the first one down. *)
Definition cfg_fallback : config :=
  mkConfig (Some "https://db.example") (Some "service-key")
           (Some "https://db.example/functions/v1/xrp-payout-webhook")
           (Some "sEdSEED") (Some "wss://down.example, wss://ledger.example") None
           None None None.

(** The row of the scenarios of the specification. *)
Definition r1 : value :=
  VObj [("id", VStr "r1"); ("wallet_address", VStr "rDEST"); ("amount", VStr "10");
        ("webhook_secret", VStr "s1")].

Definition r2 : value :=
  VObj [("id", VStr "r2"); ("wallet_address", VStr "rOTHER"); ("amount", VStr "3");
        ("destination_tag", VNum 77); ("webhook_secret", VStr "s2")].

Definition r3 : value :=
  VObj [("id", VStr "r3"); ("wallet_address", VStr "rTHIRD"); ("amount", VStr "1");
        ("webhook_secret", VStr "s3")].

(** Connected, wallet loaded, nothing in flight. *)
Definition booted : state :=
  mkState (Some (mkSession "wss://ledger.example")) (Some (mkWallet "rHOT")) 0 [] [].

(** Before the first connection. *)
Definition fresh : state := mkState None (Some (mkWallet "rHOT")) 0 [] [].

Definition accepted : string -> result response :=
  fun _ => http 200 "{}" (Ok (VObj [("ok", VBool true)])).

(** The webhook accepts every report but the "completed" one. *)
Definition completed_refused : string -> result response :=
  fun status =>
    if (status =? "completed")%string then http 500 "webhook down" no_json
    else http 200 "{}" (Ok (VObj [("ok", VBool true)])).

(** The webhook refuses the "processing" report. *)
Definition processing_refused : string -> result response :=
  fun status =>
    if (status =? "processing")%string then http 403 "bad secret" no_json
    else http 200 "{}" (Ok (VObj [("ok", VBool true)])).

(** The webhook refuses the "failed" report. *)
Definition failed_refused : string -> result response :=
  fun status =>
    if (status =? "failed")%string then http 500 "webhook down" no_json
    else http 200 "{}" (Ok (VObj [("ok", VBool true)])).

Definition queue_of (rows : list value) : result response :=
  http 200 "[...]" (Ok (VArr rows)).

(** What [submitAndWait] resolves to. *)
Definition receipt (engine hash : string) : value :=
  VObj [("result", VObj [("engine_result", VStr engine);
                         ("tx_json", VObj [("hash", VStr hash)])])].

Definition validated (engine hash : string) : result value := Ok (receipt engine hash).

Definition autofill_ok : value -> result value := fun tx => Ok (autofill_fields tx).

(** The ledger client rejects the preparation with an error that has no
    message. *)
Definition autofill_silent_error : value -> result value :=
  fun _ => Throw (mkErr "NotConnectedError" "").

Definition blob : value := VStr "120000228000000024".

(** The payment goes through and every report is accepted. *)
Definition world_success : Env :=
  world accepted (queue_of [r1]) autofill_ok (validated "tesSUCCESS" "ABC123").

(** The ledger refuses the payment. *)
Definition world_unfunded : Env :=
  world accepted (queue_of [r1]) autofill_ok (validated "tecUNFUNDED_PAYMENT" "ABC123").

(** The payment goes through and the webhook refuses the "completed" report. *)
Definition world_completed_refused : Env :=
  world completed_refused (queue_of [r1]) autofill_ok (validated "tesSUCCESS" "ABC123").

(** The webhook refuses the "processing" report. *)
Definition world_processing_refused : Env :=
  world processing_refused (queue_of [r1]) autofill_ok (validated "tesSUCCESS" "ABC123").

(** The ledger refuses the payment and the webhook refuses the "failed" report. *)
Definition world_failed_refused : Env :=
  world failed_refused (queue_of [r1]) autofill_ok (validated "tecUNFUNDED_PAYMENT" "ABC123").

(** The preparation is rejected with an error without message. *)
Definition world_silent_error : Env :=
  world accepted (queue_of [r1]) autofill_silent_error (validated "tesSUCCESS" "ABC123").

Definition refusal (status : Z) (text : string) : result response := http status text no_json.

(** The only endpoint is down. *)
Definition cfg_down : config :=
  mkConfig (Some "https://db.example") (Some "service-key")
           (Some "https://db.example/functions/v1/xrp-payout-webhook")
           (Some "sEdSEED") None (Some "wss://down.example") None None None.

(** Connected, with two payouts in flight. *)
Definition busy : state :=
  mkState (Some (mkSession "wss://ledger.example")) (Some (mkWallet "rHOT")) 2 [] [].

(** Four rows queued, one of them [null]. *)
Definition world_four_rows : Env :=
  world accepted (queue_of [r1; VNull; r2; r3]) autofill_ok (validated "tesSUCCESS" "ABC123").

(** The backend is down. *)
Definition world_backend_down : Env :=
  world accepted (refusal 503 "upstream down") autofill_ok (validated "tesSUCCESS" "ABC123").

End Scenario.

(** ** Reading the submissions *)

(** What was handed to [submitAndWait], in order. *)
Definition submissions (tr : trace) : list value :=
  flat_map (fun ev =>
              match ev with
              | EvSubmit blob _ => [blob]
              | _ => []
              end) tr.

(** An environment variable that is set and not empty. *)
Definition provided (x : option string) : bool := truthy (env_value x).

(** Every character of [s] satisfies [p]. *)
Fixpoint all_chars (p : ascii -> bool) (s : string) : bool :=
  match s with
  | EmptyString => true
  | String c rest => p c && all_chars p rest
  end.

Definition is_comma (c : ascii) : bool := (c =? ",")%char.

(** ** Configuration check, health endpoint and boot *)

(** [if (!X) throw new Error("X missing")] *)
Definition require_env (name : string) (x : option string) : result unit :=
  if negb (truthy (env_value x)) then Throw (Error (name ++ " missing")) else Ok tt.

(** [a; b] for two statements that may throw *)
Definition and_then (a b : result unit) : result unit :=
  match a with
  | Ok _ => b
  | Throw e => Throw e
  end.

Definition ensureEnv (cfg : config) : result unit :=
  and_then (require_env "SUPABASE_URL" (SUPABASE_URL cfg))
    (and_then (require_env "SUPABASE_SERVICE_ROLE_KEY" (SUPABASE_SERVICE_ROLE_KEY cfg))
       (and_then (require_env "SUPABASE_WEBHOOK_URL" (SUPABASE_WEBHOOK_URL cfg))
          (require_env "XRP_HOT_WALLET_SEED" (XRP_HOT_WALLET_SEED cfg)))).

Definition set_wallet (w : option Wallet) (st : state) : state :=
  mkState (client st) w (inFlight st) (history st) (pending st).

(** [setInterval(callback, period)] *)
Record interval : Type := mkInterval { interval_callback : callback; interval_period : value }.

Section Surface.

Variable env : Env.
Variable cfg : config.

(** [xrpl.Wallet.fromSeed]: the wallet of a seed, or an error for what is
    no seed. *)
Variable fromSeed : value -> result Wallet.

(** [wallet = xrpl.Wallet.fromSeed(XRP_HOT_WALLET_SEED)] *)
Definition load_wallet : M Wallet :=
  w <- lift (fromSeed (env_value (XRP_HOT_WALLET_SEED cfg))) ;;
  modify (set_wallet (Some w)) ;;
  ret w.

(** [!!(client && client.isConnected())] *)
Definition xrpl_connected (st : state) : bool :=
  match client st with
  | None => false
  | Some c => client_isConnected env (history st) c
  end.

(** [wallet?.classicAddress || null] *)
Definition hot_wallet (st : state) : value :=
  match wallet st with
  | None => js_or VUndefined VNull
  | Some w => js_or (VStr (classicAddress w)) VNull
  end.

Definition health_report (st : state) : http_reply :=
  mkReply 200 (VObj [("ok", VBool true);
                     ("xrpl_connected", VBool (xrpl_connected st));
                     ("hot_wallet", hot_wallet st);
                     ("inflight", VNum (inFlight st))]).

(** [res.status(500).json({ ok: false, error: e.message })] *)
Definition failure_reply (e : error) : http_reply :=
  mkReply 500 (VObj [("ok", VBool false); ("error", VStr (err_message e))]).

(** The handler of [GET /health]; it returns what it sends. *)
Definition health : M http_reply :=
  try_catch
    (lift (ensureEnv cfg) ;;
     st <- get_state ;;
     (match wallet st with
      | None => load_wallet ;; ret tt
      | Some _ => ret tt
      end) ;;
     st <- get_state ;;
     (if needs_connect env st then try_catch (connectClient env cfg) (fun _ => ret tt)
      else ret tt) ;;
     st <- get_state ;;
     ret (health_report st))
    (fun e => ret (failure_reply e)).

(** [Number(POLLING_INTERVAL_MS || 5000)] *)
Definition polling_period : value :=
  Number env (js_or (VStr (POLLING_INTERVAL_MS cfg)) (VNum 5000)).

(** The callback of [app.listen(port, ...)]; it returns the intervals it
    sets. *)
Definition boot (port : value) : M (list interval) :=
  try_catch
    (lift (ensureEnv cfg) ;;
     w <- load_wallet ;;
     console_log [VStr "[BOOT] Hot wallet:"; VStr (classicAddress w)])
    (fun e => console_error [VStr "[BOOT] env error:"; VStr (err_message e)]) ;;
  console_log [VStr "[SERVER] Listening on"; port] ;;
  ret [mkInterval CbPollLoop polling_period].

(** The payouts a cycle started, completed one after the other. *)
Fixpoint complete_all (rows : list value) : M unit :=
  match rows with
  | [] => ret tt
  | row :: rest => processOne_attempt env cfg row ;; complete_all rest
  end.

Definition clear_pending (st : state) : state :=
  mkState (client st) (wallet st) (inFlight st) (history st) [].

(** Every suspended call is resumed, in the order of dispatch. *)
Definition complete_pending : M unit :=
  st <- get_state ;;
  modify clear_pending ;;
  complete_all (pending st).

End Surface.

(** ** More scripted cases *)

Module Cases.

Import Scenario.

(** [xrpl.Wallet.fromSeed] on the seeds of the cases: a family seed starts
    with "s". *)
Definition fromSeed (seed : value) : result Wallet :=
  match seed with
  | VStr (String "s" _) => Ok (mkWallet "rHOT")
  | _ => Throw (mkErr "Error" "Non-base58 character")
  end.

(** The webhook URL is missing. *)
Definition cfg_no_webhook : config :=
  mkConfig (Some "https://db.example") (Some "service-key") None
           (Some "sEdSEED") None (Some "wss://ledger.example") None None None.

(** The seed is no seed. *)
Definition cfg_bad_seed : config :=
  mkConfig (Some "https://db.example") (Some "service-key")
           (Some "https://db.example/functions/v1/xrp-payout-webhook")
           (Some "not a seed") None (Some "wss://ledger.example") None None None.

(** [MAX_CONCURRENT] is no number. *)
Definition cfg_no_cap : config :=
  mkConfig (Some "https://db.example") (Some "service-key")
           (Some "https://db.example/functions/v1/xrp-payout-webhook")
           (Some "sEdSEED") None (Some "wss://ledger.example") None (Some "two") None.

(** [XRPL_SERVERS] is set to separators only, next to a good [XRPL_SERVER]. *)
Definition cfg_blank_servers : config :=
  mkConfig (Some "https://db.example") (Some "service-key")
           (Some "https://db.example/functions/v1/xrp-payout-webhook")
           (Some "sEdSEED") (Some " , ,") (Some "wss://ledger.example") None None None.

(** Connected, no wallet. *)
Definition no_wallet : state :=
  mkState (Some (mkSession "wss://ledger.example")) None 0 [] [].

(** Nothing loaded yet. *)
Definition cold : state := mkState None None 0 [] [].

(** The webhook answers 204 without a body. *)
Definition world_no_content : Env :=
  world (fun _ => http 204 "" no_json) (queue_of [r1]) autofill_ok
        (validated "tesSUCCESS" "ABC123").

(** The backend answers 200 with an object instead of a list. *)
Definition world_object_queue : Env :=
  world accepted (http 200 "{}" (Ok (VObj [("message", VStr "no rows")]))) autofill_ok
        (validated "tesSUCCESS" "ABC123").

Definition processing_accepted : result response :=
  http 200 "{}" (Ok (VObj [("ok", VBool true)])).

End Cases.

(** * Properties *)

(** ** Running the monad *)

Lemma record_extend ev st : record ev st = extend [ev] st.
Proof. reflexivity. Qed.

Lemma extend_extend t1 t2 st : extend t2 (extend t1 st) = extend (t1 ++ t2)%list st.
Proof. unfold extend; simpl. now rewrite app_assoc. Qed.

Lemma extend_nil st : extend [] st = st.
Proof. destruct st; unfold extend; simpl. now rewrite app_nil_r. Qed.

Lemma history_extend tr st : history (extend tr st) = (history st ++ tr)%list.
Proof. reflexivity. Qed.

Lemma wallet_extend tr st : wallet (extend tr st) = wallet st.
Proof. reflexivity. Qed.

Lemma client_extend tr st : client (extend tr st) = client st.
Proof. reflexivity. Qed.

Lemma bind_eq {A B} (m : M A) (k : A -> M B) st :
  bind m k st =
  match m st with
  | (Ok a, st') => k a st'
  | (Throw e, st') => (Throw e, st')
  end.
Proof. reflexivity. Qed.

Lemma try_catch_eq {A} (m : M A) h st :
  try_catch m h st =
  match m st with
  | (Ok a, st') => (Ok a, st')
  | (Throw e, st') => h e st'
  end.
Proof. reflexivity. Qed.

Lemma call_run {A} (ask : trace -> result A) ev st :
  call ask ev st = (ask (history st), extend [ev (ask (history st))] st).
Proof. reflexivity. Qed.

Lemma skipn_length_app {A} (l x : list A) : skipn (List.length l) (l ++ x) = x.
Proof. induction l; simpl; auto. Qed.

Lemma trace_of_extend {A} (m : M A) st r tr :
  m st = (r, extend tr st) -> trace_of m st = tr.
Proof. intros E. unfold trace_of. rewrite E. simpl. apply skipn_length_app. Qed.

Lemma slice0_short n s : (String.length s <= n)%nat -> slice0 n s = s.
Proof.
  revert n; induction s as [|c s IH]; intros [|n] H; simpl in *; auto; try lia.
  f_equal. apply IH. lia.
Qed.

Lemma slice0_length n s : (String.length (slice0 n s) <= n)%nat.
Proof.
  revert s; induction n as [|n IH]; intros [|c s]; simpl; try lia.
  specialize (IH s). lia.
Qed.

Section Running.

Variable env : Env.
Variable cfg : config.

Lemma the_wallet_run m st :
  the_wallet m st =
  (match wallet st with
   | Some w => Ok w
   | None => Throw (TypeError ("Cannot read properties of undefined (reading '" ++ m ++ "')"))
   end, st).
Proof.
  unfold the_wallet. rewrite bind_eq. unfold get_state. destruct (wallet st); reflexivity.
Qed.

Lemma the_client_run m st :
  the_client m st =
  (match client st with
   | Some c => Ok c
   | None => Throw (TypeError ("Cannot read properties of undefined (reading '" ++ m ++ "')"))
   end, st).
Proof.
  unfold the_client. rewrite bind_eq. unfold get_state. destruct (client st); reflexivity.
Qed.

Lemma postWebhook_run body st :
  postWebhook env cfg body st =
  (postWebhook_result (fetch env (history st) (webhook_request cfg body)),
   extend [EvFetch (webhook_request cfg body)
                   (fetch env (history st) (webhook_request cfg body))] st).
Proof.
  unfold postWebhook, do_fetch. rewrite bind_eq. unfold call.
  destruct (fetch env (history st) (webhook_request cfg body)) as [res|e]; simpl; auto.
  destruct (res_ok res); simpl.
  - unfold try_catch, lift. destruct (res_json res); reflexivity.
  - rewrite bind_eq. unfold lift. destruct (res_text res); reflexivity.
Qed.

Lemma postWebhook_result_cases out :
  (post_failed out = true /\ exists e, postWebhook_result out = Throw e) \/
  (post_failed out = false /\ exists v, postWebhook_result out = Ok v).
Proof.
  destruct out as [res|e]; simpl.
  - destruct (res_ok res); simpl.
    + right. split; auto. destruct (res_json res); eauto.
    + left. split; auto. destruct (res_text res); eauto.
  - left; eauto.
Qed.

Variable row : value.

Lemma processOne_try_path st :
  exists r tr,
    processOne_try env cfg row st = (r, extend tr st) /\ try_path env cfg row st r tr.
Proof.
  unfold processOne_try.
  rewrite bind_eq. destruct (nullish row) eqn:Hrow.
  { cbn [throw].
    exists (Throw (TypeError ("Cannot destructure property 'id' of 'row' as it is "
                              ++ toString row ++ "."))), [].
    rewrite extend_nil. split; [reflexivity | now constructor]. }
  cbn [ret].
  rewrite bind_eq, postWebhook_run.
  fold (row_id row) (row_secret row). fold (processing_report cfg row).
  remember (fetch env (history st) (processing_report cfg row)) as out1 eqn:Hout1.
  symmetry in Hout1.
  destruct (postWebhook_result_cases out1) as [[F1 [e E1]] | [F1 [v E1]]]; rewrite E1.
  { do 2 eexists; split; [reflexivity|]. eapply path_processing_failed; eauto. }
  unfold answers in *.
  assert (R : reported env cfg row st out1) by (repeat split; auto).
  rewrite bind_eq, the_wallet_run, wallet_extend.
  destruct (wallet st) as [w|] eqn:Hw.
  2:{ do 2 eexists; split; [reflexivity|]. now apply path_no_wallet. }
  rewrite bind_eq, call_run. fold (row_amount row).
  destruct (xrpToDrops env (row_amount row)) as [drops|e] eqn:Hd;
    rewrite extend_extend; cbn [app].
  2:{ do 2 eexists; split; [reflexivity|]. eapply path_amount_rejected; eauto. }
  assert (B : built env cfg row st out1 w drops) by (repeat split; auto; apply R).
  rewrite bind_eq, the_client_run, client_extend.
  destruct (client st) as [c|] eqn:Hc.
  2:{ do 2 eexists; split; [reflexivity|]. eapply path_no_client; eauto. }
  rewrite bind_eq, call_run, history_extend. fold (row_payment env row w drops).
  destruct (client_autofill env _ c (row_payment env row w drops)) as [prepared|e] eqn:Ha;
    rewrite extend_extend; cbn [app].
  2:{ do 2 eexists; split; [reflexivity|]. eapply path_autofill_failed; eauto. }
  assert (P : autofilled env cfg row st out1 w drops c prepared)
    by (repeat split; auto; apply B).
  rewrite bind_eq, the_wallet_run, wallet_extend, Hw.
  rewrite bind_eq, call_run.
  destruct (wallet_sign env w prepared) as [signed|e] eqn:Hs; rewrite extend_extend; cbn [app].
  2:{ do 2 eexists; split; [reflexivity|]. eapply path_sign_failed; eauto. }
  rewrite bind_eq, the_client_run, client_extend, Hc.
  rewrite bind_eq. unfold prop.
  destruct (nullish signed) eqn:Hn.
  { cbn [throw]. do 2 eexists; split; [reflexivity|]. eapply path_no_blob; eauto. }
  assert (S : was_signed env cfg row st out1 w drops c prepared signed)
    by (repeat split; auto; apply P).
  cbn [ret].
  rewrite bind_eq, call_run, history_extend.
  destruct (client_submitAndWait env _ c (get_prop signed "tx_blob")) as [result|e] eqn:Hsub;
    rewrite extend_extend; cbn [app].
  2:{ do 2 eexists; split; [reflexivity|]. eapply path_submit_failed; eauto. }
  assert (U : submitted env cfg row st out1 w drops c prepared signed result)
    by (split; auto).
  rewrite bind_eq.
  destruct (is_string (engine_of result) "tesSUCCESS") eqn:He; cbn [negb throw ret].
  2:{ do 2 eexists; split; [reflexivity|]. now apply path_engine_failure with (c := c). }
  rewrite bind_eq, postWebhook_run, history_extend. fold (completed_report cfg row result).
  remember (fetch env _ (completed_report cfg row result)) as out2 eqn:Hout2.
  symmetry in Hout2.
  rewrite extend_extend; cbn [app].
  destruct (postWebhook_result_cases out2) as [[F2 [e E2]] | [F2 [v2 E2]]]; rewrite E2.
  { do 2 eexists; split; [reflexivity|].
    apply (path_completed_failed env cfg row st out1 w drops c prepared signed result out2 e);
      auto. }
  unfold console_log, emit, modify. rewrite record_extend, extend_extend; cbn [app].
  do 2 eexists; split; [reflexivity|].
  apply (path_success env cfg row st out1 w drops c prepared signed result out2); auto.
Qed.

Lemma processOne_catch_path err st :
  exists tr,
    processOne_catch env cfg row err st = (Ok tt, extend tr st)
    /\ catch_path env cfg row st err tr.
Proof.
  unfold processOne_catch, console_error, emit, modify.
  rewrite bind_eq, record_extend. fold (payout_failed_log row err).
  rewrite try_catch_eq, bind_eq. unfold prop.
  destruct (nullish row) eqn:Hrow; cbn [throw ret].
  { rewrite record_extend, extend_extend; cbn [app].
    eexists; split; [reflexivity|]. now apply catch_no_row. }
  cbv zeta. rewrite bind_eq. cbn [ret].
  rewrite bind_eq, postWebhook_run, history_extend, extend_extend; cbn [app].
  fold (row_id row) (row_secret row). fold (failed_report cfg row err).
  remember (fetch env _ (failed_report cfg row err)) as out3 eqn:Hout3. symmetry in Hout3.
  destruct (postWebhook_result_cases out3) as [[F [e E]] | [F [v E]]]; rewrite E.
  - rewrite record_extend, extend_extend; cbn [app].
    eexists; split; [reflexivity|]. now apply catch_report_failed.
  - cbn [ret]. eexists; split; [reflexivity|]. now apply catch_reported.
Qed.

Lemma processOne_run st :
  exists tr,
    processOne env cfg row st = (Ok tt, finished tr st)
    /\ attempt_path env cfg row (started st)
                    (outcome_of (processOne_try env cfg row) (started st)) tr.
Proof.
  unfold processOne. rewrite bind_eq.
  change (inFlight_incr st) with (Ok tt, started st).
  unfold processOne_attempt, try_finally. rewrite try_catch_eq.
  destruct (processOne_try_path (started st)) as (r & tr1 & E1 & P1).
  unfold outcome_of. rewrite E1. cbn [fst].
  assert (Fin : forall tr, inFlight_decr (extend tr (started st)) = (Ok tt, finished tr st)).
  { intros tr. unfold inFlight_decr, finished, started, extend, record, set_inFlight; simpl.
    replace (inFlight st + 1 - 1) with (inFlight st) by lia.
    now rewrite <- !app_assoc. }
  destruct r as [[]|err].
  - rewrite Fin. exists tr1; split; [reflexivity | now apply attempt_done].
  - destruct (processOne_catch_path err (extend tr1 (started st))) as (tr2 & E2 & P2).
    rewrite E2, extend_extend, Fin.
    exists (tr1 ++ tr2)%list; split; [reflexivity | now apply attempt_caught].
Qed.

Lemma trace_of_finished st tr :
  processOne env cfg row st = (Ok tt, finished tr st) ->
  trace_of (processOne env cfg row) st
  = (EvInFlight (inFlight st + 1) :: tr ++ [EvInFlight (inFlight st)])%list.
Proof. intros E. unfold trace_of. rewrite E. simpl. apply skipn_length_app. Qed.

End Running.

(** ** The payout processor *)

Ltac unfold_reports :=
  unfold ledger_events, processing_report, completed_report, failed_report,
    payout_failed_log, report_failed_log, webhook_request, processing_body,
    completed_body, failed_body in *.

(** Case analysis on the run of an attempt. *)
Ltac attempt_cases P :=
  inversion P; subst;
  match goal with
  | Ht : try_path _ _ _ _ _ _ |- _ => inversion Ht; subst
  end;
  try match goal with
      | Hc : catch_path _ _ _ _ _ _ |- _ => inversion Hc; subst
      end.

Ltac split_in H :=
  simpl in H;
  repeat (destruct H as [H|H]; [try discriminate H | ]);
  try contradiction.

(** The body of a post found in the trace. *)
Ltac this_post HIn Hb :=
  injection HIn as ? ?; subst; simpl in Hb; injection Hb as ?; subst.


Section Processor.

Local Arguments slice0 : simpl never.

Variable env : Env.
Variable cfg : config.
Variable row : value.

Lemma attempt_no_counter_write st r tr :
  attempt_path env cfg row st r tr -> filter is_counter_write tr = [].
Proof. intros P. attempt_cases P; reflexivity. Qed.

Lemma reported_not_failed st out1 :
  reported env cfg row st out1 -> post_failed out1 = false.
Proof. intros R; apply R. Qed.

Lemma submitted_reported st out1 w drops c prepared signed result :
  submitted env cfg row st out1 w drops c prepared signed result ->
  reported env cfg row st out1.
Proof. intros S; apply S. Qed.

Lemma was_signed_reported st out1 w drops c prepared signed :
  was_signed env cfg row st out1 w drops c prepared signed ->
  reported env cfg row st out1.
Proof. intros S; apply S. Qed.

Lemma autofilled_reported st out1 w drops c prepared :
  autofilled env cfg row st out1 w drops c prepared ->
  reported env cfg row st out1.
Proof. intros S; apply S. Qed.

Lemma built_reported st out1 w drops :
  built env cfg row st out1 w drops -> reported env cfg row st out1.
Proof. intros S; apply S. Qed.

(** Claim C5: the counter is raised once before anything else, lowered
    once after everything else whatever the outcome, and holds its first value
    again when [processOne] is over. *)
Theorem processOne_releases_its_slot st :
  inFlight (snd (processOne env cfg row st)) = inFlight st /\
  exists mid,
    trace_of (processOne env cfg row) st
    = (EvInFlight (inFlight st + 1) :: mid ++ [EvInFlight (inFlight st)])%list
    /\ filter is_counter_write mid = [].
Proof.
  destruct (processOne_run env cfg row st) as (tr & E & P).
  split.
  - rewrite E. reflexivity.
  - exists tr. split.
    + now apply trace_of_finished.
    + eapply attempt_no_counter_write; eassumption.
Qed.


(** Claim C3: when the report of "processing" fails, nothing of the payment
    is built, prepared, signed or submitted; the attempt goes straight to the
    report of the failure and ends. *)
Theorem processing_failure_aborts st out :
  In (EvFetch (processing_report cfg row) out) (trace_of (processOne env cfg row) st) ->
  post_failed out = true ->
  ledger_steps (trace_of (processOne env cfg row) st) = [] /\
  outcome_of (processOne env cfg row) st = Ok tt /\
  exists e,
    postWebhook_result out = Throw e /\
    posted (trace_of (processOne env cfg row) st)
    = [processing_body (row_id row) (row_secret row);
       failed_body (row_id row) (slice0 500 (message_or_error e)) (row_secret row)].
Proof.
  destruct (processOne_run env cfg row st) as (tr & E & P).
  rewrite (trace_of_finished _ _ _ _ _ E). unfold outcome_of. rewrite E.
  intros HIn Hout.
  attempt_cases P.
  all: repeat match goal with
         | H : submitted _ _ _ _ _ _ _ _ _ _ _ |- _ => apply submitted_reported in H
         | H : was_signed _ _ _ _ _ _ _ _ _ _ |- _ => apply was_signed_reported in H
         | H : autofilled _ _ _ _ _ _ _ _ _ |- _ => apply autofilled_reported in H
         | H : built _ _ _ _ _ _ _ |- _ => apply built_reported in H
         | H : reported _ _ _ _ _ |- _ => apply reported_not_failed in H
         end.
  all: unfold_reports; split_in HIn.
  all: try (injection HIn as ?; subst; congruence).
  all: injection HIn as ?; subst out1.
  all: split; [reflexivity | split; [reflexivity | exists err; split; [assumption | reflexivity]]].
Qed.


Lemma is_string_spec v s : is_string v s = true <-> v = VStr s.
Proof.
  destruct v; simpl; try (split; [discriminate | intros H; discriminate H]).
  rewrite String.eqb_eq. split; [intros -> | intros [= ->]]; reflexivity.
Qed.

(** Claim C1: when the ledger answers the submission with "tesSUCCESS",
    the reports posted are one "processing" and then one "completed" that
    carries the hash as [tx_id], both with the [id] and the [webhook_secret]
    of the row; the payment that was prepared, signed and submitted has for
    [Amount] the drops [xrpToDrops] gives for the amount of the row.  (Only
    when the post of "completed" itself fails does one more report follow:
    the "failed" one of the [catch] block.) *)
Theorem successful_submission_reported st blob result :
  In (EvSubmit blob (Ok result)) (trace_of (processOne env cfg row) st) ->
  engine_of result = VStr "tesSUCCESS" ->
  posted_with "processing" (trace_of (processOne env cfg row) st)
  = [processing_body (row_id row) (row_secret row)] /\
  posted_with "completed" (trace_of (processOne env cfg row) st)
  = [completed_body (row_id row) (txHash_of result) (row_secret row)] /\
  (exists rest,
      posted (trace_of (processOne env cfg row) st)
      = processing_body (row_id row) (row_secret row)
        :: completed_body (row_id row) (txHash_of result) (row_secret row) :: rest
      /\ (rest = [] \/ exists msg, rest = [failed_body (row_id row) msg (row_secret row)])) /\
  (exists w drops prepared signed,
      xrpToDrops env (toString (get_prop row "amount")) = Ok drops /\
      get_prop (row_payment env row w drops) "Amount" = VStr drops /\
      In (EvAutofill (row_payment env row w drops) (Ok prepared))
         (trace_of (processOne env cfg row) st) /\
      In (EvSign prepared (Ok signed)) (trace_of (processOne env cfg row) st) /\
      blob = get_prop signed "tx_blob").
Proof.
  destruct (processOne_run env cfg row st) as (tr & E & P).
  rewrite (trace_of_finished _ _ _ _ _ E).
  intros HIn Heng. apply is_string_spec in Heng.
  attempt_cases P.
  all: unfold_reports; split_in HIn.
  all: injection HIn as ? ?; subst; try congruence.
  all: match goal with
       | H : submitted _ _ _ _ ?o ?w ?d ?c ?p ?s ?r |- _ =>
           assert (Hd : xrpToDrops env (row_amount row) = Ok d) by apply H
       end.
  all: split; [reflexivity | split; [reflexivity | split]].
  all: try (eexists; split; [reflexivity | (now left) || (right; eexists; reflexivity)]).
  all: do 4 eexists; split; [exact Hd | split; [reflexivity | ]].
  all: split; [ simpl; auto 10 | split; [ simpl; auto 10 | reflexivity ] ].
Qed.


Lemma engine_message_kept engine :
  message_or_error (Error (engine_message engine)) = engine_message engine.
Proof. reflexivity. Qed.

Lemma engine_message_code code :
  code <> "" -> engine_message (VStr code) = "Engine result: " ++ code.
Proof.
  intros H. unfold engine_message, js_or. simpl.
  destruct (String.eqb_spec code ""); [contradiction | reflexivity].
Qed.

Lemma engine_message_unknown engine :
  truthy engine = false -> engine_message engine = "Engine result: unknown".
Proof. intros H. unfold engine_message, js_or. now rewrite H. Qed.

(** Claim C2: when the ledger answers the submission with anything but
    "tesSUCCESS", the reports posted are one "processing" and then one
    "failed", and no "completed"; the [error_message] is "Engine result: "
    followed by the code, or by "unknown" when there is none, cut to 500
    characters like every failure message (which leaves it whole when it is
    no longer than that). *)
Theorem engine_failure_reported st blob result :
  In (EvSubmit blob (Ok result)) (trace_of (processOne env cfg row) st) ->
  engine_of result <> VStr "tesSUCCESS" ->
  posted (trace_of (processOne env cfg row) st)
  = [processing_body (row_id row) (row_secret row);
     failed_body (row_id row) (slice0 500 (engine_message (engine_of result)))
                 (row_secret row)] /\
  posted_with "processing" (trace_of (processOne env cfg row) st)
  = [processing_body (row_id row) (row_secret row)] /\
  posted_with "failed" (trace_of (processOne env cfg row) st)
  = [failed_body (row_id row) (slice0 500 (engine_message (engine_of result)))
                 (row_secret row)] /\
  posted_with "completed" (trace_of (processOne env cfg row) st) = [] /\
  ((String.length (engine_message (engine_of result)) <= 500)%nat ->
   slice0 500 (engine_message (engine_of result)) = engine_message (engine_of result)) /\
  (forall code, engine_of result = VStr code -> code <> "" ->
                engine_message (engine_of result) = "Engine result: " ++ code) /\
  (truthy (engine_of result) = false ->
   engine_message (engine_of result) = "Engine result: unknown").
Proof.
  destruct (processOne_run env cfg row st) as (tr & E & P).
  rewrite (trace_of_finished _ _ _ _ _ E).
  intros HIn Heng.
  assert (Hs : is_string (engine_of result) "tesSUCCESS" = false).
  { destruct (is_string (engine_of result) "tesSUCCESS") eqn:Hs; auto.
    apply is_string_spec in Hs. contradiction. }
  assert (Tail :
    ((String.length (engine_message (engine_of result)) <= 500)%nat ->
     slice0 500 (engine_message (engine_of result)) = engine_message (engine_of result)) /\
    (forall code, engine_of result = VStr code -> code <> "" ->
                  engine_message (engine_of result) = "Engine result: " ++ code) /\
    (truthy (engine_of result) = false ->
     engine_message (engine_of result) = "Engine result: unknown")).
  { split; [apply slice0_short | split].
    - intros code -> Hc. now apply engine_message_code.
    - apply engine_message_unknown. }
  clear Heng.
  attempt_cases P.
  all: unfold_reports; split_in HIn.
  all: injection HIn as ? ?; subst; try congruence.
  all: try match goal with
       | H : submitted _ _ _ _ _ _ _ _ _ _ _ |- _ =>
           apply submitted_reported in H; destruct H as (? & _)
       end; try congruence.
  all: rewrite ?engine_message_kept.
  all: repeat split; try reflexivity; apply Tail.
Qed.

End Processor.

(** ** The ledger connector *)

Section Connector.

Variable env : Env.
Variable cfg : config.

Lemma trace_of_history {A} (m : M A) st tr :
  history (snd (m st)) = (history st ++ tr)%list -> trace_of m st = tr.
Proof. intros E. unfold trace_of. rewrite E. apply skipn_length_app. Qed.

Lemma connect_one_run url st :
  (client_connect env (history st) url = Ok tt /\
   connect_one env url st
   = (Ok true,
      set_client (Some (mkSession url))
        (extend [EvConnect url (Ok tt);
                 EvConsoleLog [VStr "[XRPL] Connected:"; VStr url]] st))) \/
  (exists e,
      client_connect env (history st) url = Throw e /\
      connect_one env url st
      = (Ok false,
         extend [EvConnect url (Throw e);
                 EvConsoleError [VStr "[XRPL] Failed:"; VStr url; VStr (err_message e)]]
                st)).
Proof.
  unfold connect_one. rewrite try_catch_eq, bind_eq, call_run.
  destruct (client_connect env (history st) url) as [[]|e].
  - left. split; [reflexivity | ].
    unfold bind, modify, console_log, emit, ret, record, set_client, extend; simpl.
    now rewrite <- app_assoc.
  - right. exists e. split; [reflexivity | ].
    unfold bind, modify, console_error, emit, ret, record, extend; simpl.
    now rewrite <- app_assoc.
Qed.

(** How [connect_loop] ends: on the first endpoint that accepts, or after
    every endpoint refused.  It only talks to the ledger endpoints. *)
Lemma connect_loop_run urls :
  forall st,
    (exists tr before url after failures,
        connect_loop env urls st
        = (Ok tt, set_client (Some (mkSession url)) (extend tr st)) /\
        urls = (before ++ url :: after)%list /\
        connects tr = (failures ++ [(url, Ok tt)])%list /\
        map fst failures = before /\
        forallb refused failures = true /\
        fetches tr = []) \/
    (exists tr,
        connect_loop env urls st
        = (Throw (Error "No XRPL server reachable"), extend tr st) /\
        map fst (connects tr) = urls /\
        forallb refused (connects tr) = true /\
        fetches tr = []).
Proof.
  induction urls as [|url rest IH]; intros st.
  - right. exists []. rewrite extend_nil. repeat split.
  - cbn [connect_loop]. rewrite bind_eq.
    destruct (connect_one_run url st) as [[Hc E] | (e & Hc & E)]; rewrite E.
    + left. exists [EvConnect url (Ok tt); EvConsoleLog [VStr "[XRPL] Connected:"; VStr url]],
        [], url, rest, [].
      repeat split.
    + destruct (IH (extend [EvConnect url (Throw e);
                            EvConsoleError [VStr "[XRPL] Failed:"; VStr url;
                                            VStr (err_message e)]] st))
        as [(tr & before & u & after & failures & E' & Hu & Hcs & Hm & Hf & Hq)
           | (tr & E' & Hm & Hf & Hq)].
      * left.
        exists (EvConnect url (Throw e)
                :: EvConsoleError [VStr "[XRPL] Failed:"; VStr url; VStr (err_message e)]
                :: tr),
          (url :: before), u, after, ((url, Throw e) :: failures).
        cbn [ret]. rewrite E'. split; [| repeat split].
        -- f_equal. unfold set_client, extend; simpl. now rewrite <- app_assoc.
        -- simpl. now rewrite Hu.
        -- simpl. now rewrite Hcs.
        -- simpl. now rewrite Hm.
        -- simpl. exact Hf.
        -- exact Hq.
      * right.
        exists (EvConnect url (Throw e)
                :: EvConsoleError [VStr "[XRPL] Failed:"; VStr url; VStr (err_message e)]
                :: tr).
        cbn [ret]. rewrite E'. split; [| split; [| split]].
        -- f_equal. unfold extend; simpl. now rewrite <- app_assoc.
        -- simpl. now rewrite Hm.
        -- simpl. exact Hf.
        -- exact Hq.
Qed.

(** Claim C7: [connectClient] tries the endpoints in the order of the
    list; the first one that accepts becomes the client and no endpoint after
    it is tried; when every endpoint refuses, the error "No XRPL server
    reachable" is thrown and the client is left as it was. *)
Theorem connectClient_first_reachable st :
  (exists before url after failures,
      WS_DEFAULTS cfg = (before ++ url :: after)%list /\
      connects (trace_of (connectClient env cfg) st) = (failures ++ [(url, Ok tt)])%list /\
      map fst failures = before /\
      forallb refused failures = true /\
      outcome_of (connectClient env cfg) st = Ok tt /\
      client (snd (connectClient env cfg st)) = Some (mkSession url)) \/
  (map fst (connects (trace_of (connectClient env cfg) st)) = WS_DEFAULTS cfg /\
   forallb refused (connects (trace_of (connectClient env cfg) st)) = true /\
   outcome_of (connectClient env cfg) st = Throw (Error "No XRPL server reachable") /\
   client (snd (connectClient env cfg st)) = client st).
Proof.
  unfold connectClient, outcome_of.
  destruct (connect_loop_run (WS_DEFAULTS cfg) st)
    as [(tr & before & url & after & failures & E & Hu & Hcs & Hm & Hf & _)
       | (tr & E & Hm & Hf & _)].
  - left. exists before, url, after, failures.
    rewrite (trace_of_history _ st tr) by (rewrite E; reflexivity).
    rewrite E. repeat split; assumption.
  - right.
    rewrite (trace_of_history _ st tr) by (rewrite E; reflexivity).
    rewrite E. repeat split; assumption.
Qed.

(** Claim C10: with neither [XRPL_SERVERS] nor [XRPL_SERVER] set, the list
    of endpoints is empty (the built-in endpoints are never reached), and
    [connectClient] throws "No XRPL server reachable" without trying any
    connection. *)
Theorem no_endpoint_without_configuration st :
  XRPL_SERVERS cfg = None -> XRPL_SERVER cfg = None ->
  WS_DEFAULTS cfg = [] /\
  outcome_of (connectClient env cfg) st = Throw (Error "No XRPL server reachable") /\
  trace_of (connectClient env cfg) st = [].
Proof.
  intros H1 H2.
  assert (E : WS_DEFAULTS cfg = []) by (unfold WS_DEFAULTS; rewrite H1, H2; reflexivity).
  split; [exact E | ].
  unfold connectClient, outcome_of. rewrite E. cbn [connect_loop throw fst].
  split; [reflexivity | ].
  apply trace_of_history. cbn [snd]. now rewrite app_nil_r.
Qed.

End Connector.

(** The built-in endpoints are out of reach whatever the configuration. *)
Lemma WS_DEFAULTS_never_builtin cfg :
  WS_DEFAULTS cfg = array_or
                      (option_map (fun s => filter nonempty (map trim (split_comma s)))
                                  (XRPL_SERVERS cfg))
                      (singleton_filtered (XRPL_SERVER cfg)).
Proof. reflexivity. Qed.

(** ** The queue fetcher *)

Section Fetcher.

Variable env : Env.
Variable cfg : config.

(** What [fetchQueued] returns on an answer of [fetch]. *)
Lemma fetchQueued_run st limit :
  limit <> VUndefined ->
  fetchQueued env cfg limit st
  = (match fetch env (history st) (queued_request cfg limit) with
     | Throw e => Throw e
     | Ok res =>
         if negb (res_ok res) then
           match res_text res with
           | Ok t => Throw (Error ("Fetch queued failed: "
                                   ++ string_of_Z (res_status res) ++ " " ++ t))
           | Throw e => Throw e
           end
         else res_json res
     end,
     extend [EvFetch (queued_request cfg limit)
                     (fetch env (history st) (queued_request cfg limit))] st).
Proof.
  intros Hl. unfold fetchQueued.
  replace (match limit with VUndefined => VNum 5 | _ => limit end) with limit
    by (destruct limit; congruence).
  unfold do_fetch. rewrite bind_eq, call_run.
  destruct (fetch env (history st) (queued_request cfg limit)) as [res|e]; auto.
  destruct (res_ok res); cbn [negb].
  - unfold lift. reflexivity.
  - rewrite bind_eq. unfold lift. destruct (res_text res); reflexivity.
Qed.

Lemma res_ok_spec res : res_ok res = true <-> 200 <= res_status res <= 299.
Proof.
  unfold res_ok. rewrite andb_true_iff, !Z.leb_le. reflexivity.
Qed.

(** Claim C8: [fetchQueued(limit)] sends one GET for the rows with status
    "queued" and chain "XRP", oldest request first, [limit] at most, to the
    REST endpoint under [SUPABASE_URL], with the service role key as [apikey]
    and as bearer token; an answer outside 200-299 makes it throw an error
    that carries the status and the body, and an answer inside makes it
    return what [res.json()] gives. *)
Theorem fetchQueued_contract st n :
  trace_of (fetchQueued env cfg (VNum n)) st
  = [EvFetch (queued_request cfg (VNum n))
             (fetch env (history st) (queued_request cfg (VNum n)))] /\
  req_method (queued_request cfg (VNum n)) = "GET" /\
  req_body (queued_request cfg (VNum n)) = None /\
  (forall base,
      SUPABASE_URL cfg = Some base ->
      req_url (queued_request cfg (VNum n))
      = base
        ++ "/rest/v1/payout_requests?status=eq.queued&chain=eq.XRP&order=requested_at.asc&limit="
        ++ string_of_Z n) /\
  (SUPABASE_URL cfg = None ->
   req_url (queued_request cfg (VNum n))
   = "undefined/rest/v1/payout_requests?status=eq.queued&chain=eq.XRP&order=requested_at.asc&limit="
     ++ string_of_Z n) /\
  (forall key,
      SUPABASE_SERVICE_ROLE_KEY cfg = Some key ->
      req_headers (queued_request cfg (VNum n))
      = [("apikey", VStr key);
         ("Authorization", VStr ("Bearer " ++ key));
         ("Content-Type", VStr "application/json")]) /\
  (SUPABASE_SERVICE_ROLE_KEY cfg = None ->
   req_headers (queued_request cfg (VNum n))
   = [("apikey", VUndefined);
      ("Authorization", VStr "Bearer undefined");
      ("Content-Type", VStr "application/json")]) /\
  (forall res t,
      fetch env (history st) (queued_request cfg (VNum n)) = Ok res ->
      ~ (200 <= res_status res <= 299) ->
      res_text res = Ok t ->
      outcome_of (fetchQueued env cfg (VNum n)) st
      = Throw (Error ("Fetch queued failed: " ++ string_of_Z (res_status res) ++ " " ++ t))) /\
  (forall res,
      fetch env (history st) (queued_request cfg (VNum n)) = Ok res ->
      200 <= res_status res <= 299 ->
      outcome_of (fetchQueued env cfg (VNum n)) st = res_json res).
Proof.
  pose proof (fetchQueued_run st (VNum n) ltac:(discriminate)) as E.
  split; [now apply trace_of_extend with (r := fst (fetchQueued env cfg (VNum n) st));
          rewrite E | ].
  split; [reflexivity | split; [reflexivity | ]].
  split; [| split; [| split; [| split; [| split]]]].
  - intros base Hb. cbn [queued_request req_url]. unfold queued_url. rewrite Hb.
    reflexivity.
  - intros Hb. cbn [queued_request req_url]. unfold queued_url. rewrite Hb.
    reflexivity.
  - intros key Hk. cbn [queued_request req_headers]. unfold supabaseHeaders.
    rewrite Hk. reflexivity.
  - intros Hk. cbn [queued_request req_headers]. unfold supabaseHeaders.
    rewrite Hk. reflexivity.
  - intros res t Hf Hs Ht. unfold outcome_of. rewrite E, Hf. cbn [fst].
    destruct (res_ok res) eqn:Hok; [apply res_ok_spec in Hok; contradiction | ].
    cbn [negb]. now rewrite Ht.
  - intros res Hf Hs. unfold outcome_of. rewrite E, Hf. cbn [fst].
    apply res_ok_spec in Hs. now rewrite Hs.
Qed.

End Fetcher.

(** ** The manual trigger *)

(** Claim C9: with a control token configured, [POST /process] answers 401
    unless the Authorization header is exactly "Bearer " followed by the
    token; on an exact match, and on every request when no token is
    configured, it answers [{ok: true, started: true}] at once and sets one
    timer of 50 ms for [pollLoop], whose run has no part in the answer. *)
Theorem process_endpoint_gate cfg authorization :
  (forall token,
      CONTROL_BEARER_TOKEN cfg = Some token -> token <> "" ->
      (authorization <> Some ("Bearer " ++ token) ->
       process_handler cfg authorization
       = (mkReply 401 (VObj [("ok", VBool false); ("error", VStr "Unauthorized")]), [])) /\
      (authorization = Some ("Bearer " ++ token) ->
       process_handler cfg authorization
       = (mkReply 200 (VObj [("ok", VBool true); ("started", VBool true)]),
          [mkTimer CbPollLoop 50]))) /\
  (CONTROL_BEARER_TOKEN cfg = None \/ CONTROL_BEARER_TOKEN cfg = Some "" ->
   process_handler cfg authorization
   = (mkReply 200 (VObj [("ok", VBool true); ("started", VBool true)]),
      [mkTimer CbPollLoop 50])).
Proof.
  assert (Gate : forall token, token <> "" ->
            is_string (js_or (env_value authorization) (VStr "")) ("Bearer " ++ token) = true
            <-> authorization = Some ("Bearer " ++ token)).
  { intros token _. rewrite is_string_spec. unfold js_or.
    destruct authorization as [a|]; simpl.
    - destruct (String.eqb_spec a ""); simpl.
      + subst a. split; discriminate.
      + split; [intros [= ->]; reflexivity | intros [= ->]; reflexivity].
    - split; discriminate. }
  unfold process_handler. split.
  - intros token Ht Hne. rewrite Ht.
    assert (Hcfg : truthy (env_value (Some token)) = true).
    { simpl. destruct (String.eqb_spec token ""); [contradiction | reflexivity]. }
    rewrite Hcfg. change (interpolate (Some token)) with token.
    specialize (Gate token Hne).
    destruct (is_string (js_or (env_value authorization) (VStr "")) ("Bearer " ++ token));
      cbn [negb]; split; intros H; try reflexivity.
    + exfalso. apply H. now apply Gate.
    + apply Gate in H. discriminate H.
  - intros [H | H]; rewrite H; reflexivity.
Qed.

(** ** Failure reports *)

Section BestEffort.

Local Arguments slice0 : simpl never.

Variable env : Env.
Variable cfg : config.
Variable row : value.

Lemma processOne_never_throws st : outcome_of (processOne env cfg row) st = Ok tt.
Proof.
  destruct (processOne_run env cfg row st) as (tr & E & _).
  unfold outcome_of. now rewrite E.
Qed.

Lemma failed_report_failure_swallowed st req out body :
  In (EvFetch req out) (trace_of (processOne env cfg row) st) ->
  req_body req = Some body -> has_status "failed" body = true -> post_failed out = true ->
  logged_and_swallowed (trace_of (processOne env cfg row) st) (EvFetch req out) (inFlight st).
Proof.
  destruct (processOne_run env cfg row st) as (tr & E & P).
  rewrite (trace_of_finished _ _ _ _ _ E).
  intros HIn Hb Hs Hf.
  attempt_cases P.
  all: unfold_reports; split_in HIn.
  all: this_post HIn Hb; try discriminate Hs; try congruence.
  all: match goal with
       | |- logged_and_swallowed ?tr _ _ =>
           exists (firstn (List.length tr - 3) tr); eexists; reflexivity
       end.
Qed.


Lemma completed_report_failure_caught st req out body :
  In (EvFetch req out) (trace_of (processOne env cfg row) st) ->
  req_body req = Some body -> has_status "completed" body = true -> post_failed out = true ->
  exists e,
    postWebhook_result out = Throw e /\
    posted_with "failed" (trace_of (processOne env cfg row) st)
    = [failed_body (row_id row) (slice0 500 (message_or_error e)) (row_secret row)].
Proof.
  destruct (processOne_run env cfg row st) as (tr & E & P).
  rewrite (trace_of_finished _ _ _ _ _ E).
  intros HIn Hb Hs Hf.
  attempt_cases P.
  all: unfold_reports; split_in HIn.
  all: this_post HIn Hb; try discriminate Hs; try congruence.
  all: try match goal with
       | H : submitted _ _ _ _ _ _ _ _ _ _ _ |- _ =>
           apply submitted_reported in H; destruct H as (? & _)
       end; try congruence.
  all: eexists; split; [eassumption | reflexivity].
Qed.

Lemma failure_message_cut st err m :
  outcome_of (processOne_try env cfg row) (started st) = Throw err ->
  In m (failure_messages (trace_of (processOne env cfg row) st)) ->
  m = VStr (slice0 500 (message_or_error err)).
Proof.
  destruct (processOne_run env cfg row st) as (tr & E & P).
  rewrite (trace_of_finished _ _ _ _ _ E).
  intros Htry Hm. rewrite Htry in P.
  attempt_cases P.
  all: unfold_reports; unfold failure_messages, posted_with in Hm; simpl in Hm.
  all: intuition congruence.
Qed.

Lemma message_or_error_message err :
  err_message err <> "" -> message_or_error err = err_message err.
Proof.
  intros H. unfold message_or_error.
  destruct (String.eqb_spec (err_message err) ""); [contradiction | reflexivity].
Qed.

(** Claim C4, as the code has it: [processOne] never throws; a "failed"
    report whose post fails is logged and nothing follows but the release of
    the slot; a "completed" report whose post fails is caught like any other
    failure and answered by one "failed" report; and the [error_message] of a
    "failed" report is the first 500 characters of the message of the error
    caught, or of the error as a string when it has no message. *)
Theorem failure_reporting_is_best_effort st :
  outcome_of (processOne env cfg row) st = Ok tt /\
  (forall req out body,
      In (EvFetch req out) (trace_of (processOne env cfg row) st) ->
      req_body req = Some body -> has_status "failed" body = true ->
      post_failed out = true ->
      logged_and_swallowed (trace_of (processOne env cfg row) st) (EvFetch req out)
                           (inFlight st)) /\
  (forall req out body,
      In (EvFetch req out) (trace_of (processOne env cfg row) st) ->
      req_body req = Some body -> has_status "completed" body = true ->
      post_failed out = true ->
      exists e,
        postWebhook_result out = Throw e /\
        posted_with "failed" (trace_of (processOne env cfg row) st)
        = [failed_body (row_id row) (slice0 500 (message_or_error e)) (row_secret row)]) /\
  (forall err m,
      outcome_of (processOne_try env cfg row) (started st) = Throw err ->
      In m (failure_messages (trace_of (processOne env cfg row) st)) ->
      m = VStr (slice0 500 (message_or_error err)) /\
      (String.length (slice0 500 (message_or_error err)) <= 500)%nat /\
      (err_message err <> "" -> m = VStr (slice0 500 (err_message err)))).
Proof.
  split; [apply processOne_never_throws | split; [| split]].
  - apply failed_report_failure_swallowed.
  - apply completed_report_failure_caught.
  - intros err m Htry Hm.
    pose proof (failure_message_cut st err m Htry Hm) as ->.
    split; [reflexivity | split; [apply slice0_length |]].
    intros H. now rewrite message_or_error_message.
Qed.

End BestEffort.

(** ** The poll loop *)

Section PollLoop.

Variable env : Env.
Variable cfg : config.

Lemma processOne_nullish row st :
  nullish row = true ->
  exists tr,
    processOne env cfg row st = (Ok tt, finished tr st)
    /\ fetches tr = [] /\ connects tr = [].
Proof.
  intros Hrow.
  destruct (processOne_run env cfg row st) as (tr & E & P).
  exists tr. split; [exact E | ].
  attempt_cases P.
  all: repeat match goal with
         | H : submitted _ _ _ _ _ _ _ _ _ _ _ |- _ => apply submitted_reported in H
         | H : was_signed _ _ _ _ _ _ _ _ _ _ |- _ => apply was_signed_reported in H
         | H : autofilled _ _ _ _ _ _ _ _ _ |- _ => apply autofilled_reported in H
         | H : built _ _ _ _ _ _ _ |- _ => apply built_reported in H
         | H : reported _ _ _ _ _ |- _ => destruct H as (? & _)
         end; try congruence.
  split; reflexivity.
Qed.

Lemma fetches_app t1 t2 : fetches (t1 ++ t2)%list = (fetches t1 ++ fetches t2)%list.
Proof. apply flat_map_app. Qed.

Lemma connects_app t1 t2 : connects (t1 ++ t2)%list = (connects t1 ++ connects t2)%list.
Proof. apply flat_map_app. Qed.

Lemma firstn_succ_cons {A} (k : Z) (x : A) (l : list A) :
  0 < k -> firstn (Z.to_nat k) (x :: l) = x :: firstn (Z.to_nat (k - 1)) l.
Proof.
  intros H. replace (Z.to_nat k) with (S (Z.to_nat (k - 1))) by lia. reflexivity.
Qed.

(** The loop gives a slot to the live rows, in order, until the cap is
    reached; it talks neither to the backend nor to the ledger. *)
Lemma dispatch_run k items :
  cap env cfg = VNum k ->
  forall st,
  exists tr,
    dispatch env cfg items st
    = (Ok tt, after_dispatch st tr (taken k (inFlight st) items))
    /\ fetches tr = [] /\ connects tr = [].
Proof.
  intros Hcap. induction items as [|row rest IH]; intros st.
  - exists []. cbn [dispatch ret]. split; [| split; reflexivity].
    f_equal. unfold after_dispatch, taken. rewrite firstn_nil. cbn [List.length Z.of_nat].
    destruct st; cbn. now rewrite Z.add_0_r, !app_nil_r.
  - cbn [dispatch]. rewrite bind_eq. cbn [get_state]. rewrite Hcap. cbn [ge_number].
    destruct (Z.leb_spec k (inFlight st)) as [Hfull | Hfree].
    + exists []. cbn [ret]. split; [| split; reflexivity].
      f_equal. unfold after_dispatch, taken.
      replace (Z.to_nat (k - inFlight st)) with O by lia. cbn [firstn List.length Z.of_nat].
      destruct st; cbn. now rewrite Z.add_0_r, !app_nil_r.
    + rewrite bind_eq. unfold processOne_start.
      destruct (nullish row) eqn:Hrow.
      * destruct (processOne_nullish row st Hrow) as (tr0 & E0 & Hf0 & Hc0). rewrite E0.
        destruct (IH (finished tr0 st)) as (tr & E & Hf & Hc). rewrite E.
        exists (EvInFlight (inFlight st + 1) :: tr0 ++ [EvInFlight (inFlight st)] ++ tr)%list.
        split; [| split].
        -- f_equal. unfold after_dispatch, taken, finished, live. cbn.
           rewrite Hrow. cbn [negb]. f_equal.
           rewrite <- !app_assoc. cbn. now rewrite <- !app_assoc.
        -- change (fetches ([EvInFlight (inFlight st + 1)] ++ tr0
                             ++ [EvInFlight (inFlight st)] ++ tr)%list = []).
           rewrite !fetches_app, Hf0, Hf. reflexivity.
        -- change (connects ([EvInFlight (inFlight st + 1)] ++ tr0
                              ++ [EvInFlight (inFlight st)] ++ tr)%list = []).
           rewrite !connects_app, Hc0, Hc. reflexivity.
      * rewrite bind_eq.
        change (inFlight_incr st) with (Ok tt, started st).
        cbn [modify].
        destruct (IH (suspend row (started st))) as (tr & E & Hf & Hc). rewrite E.
        exists (EvInFlight (inFlight st + 1) :: tr).
        split; [| split].
        -- f_equal. unfold after_dispatch, taken, suspend, started, live. cbn.
           rewrite Hrow. cbn [negb].
           rewrite (firstn_succ_cons (k - inFlight st)) by lia.
           replace (k - inFlight st - 1) with (k - (inFlight st + 1)) by lia.
           cbn [List.length]. f_equal.
           ++ lia.
           ++ now rewrite <- app_assoc.
           ++ now rewrite <- app_assoc.
        -- exact Hf.
        -- exact Hc.
Qed.


Lemma after_dispatch_nothing st tr :
  after_dispatch st tr [] = extend tr st.
Proof.
  unfold after_dispatch, extend. cbn [List.length Z.of_nat].
  now rewrite Z.add_0_r, app_nil_r.
Qed.

Lemma after_dispatch_extend st ev tr started :
  after_dispatch (extend [ev] st) tr started = after_dispatch st (ev :: tr) started.
Proof.
  unfold after_dispatch, extend. cbn. now rewrite <- app_assoc.
Qed.

Lemma taken_nil k n : taken k n [] = [].
Proof. unfold taken. cbn [filter]. apply firstn_nil. Qed.

(** [pollLoop] after the connection: nothing when the cap is reached, else
    one query of the queue and the dispatch of what it gave. *)
Lemma poll_queue_run k st :
  cap env cfg = VNum k ->
  (k <= inFlight st /\ poll_queue env cfg st = (Ok tt, st)) \/
  (inFlight st < k /\
   exists tr,
     poll_queue env cfg st
     = (Ok tt,
        after_dispatch st
          (EvFetch (queued_request cfg (VNum k))
                   (fetch env (history st) (queued_request cfg (VNum k))) :: tr)
          (taken k (inFlight st) (rows_of (outcome_of (fetchQueued env cfg (VNum k)) st))))
     /\ fetches tr = [] /\ connects tr = []).
Proof.
  intros Hcap. unfold poll_queue. rewrite bind_eq. cbn [get_state].
  rewrite Hcap. cbn [ge_number].
  destruct (Z.leb_spec k (inFlight st)) as [Hfull | Hfree].
  { left. split; [assumption | reflexivity]. }
  right. split; [assumption | ].
  pose proof (fetchQueued_run env cfg st (VNum k) ltac:(discriminate)) as E.
  unfold outcome_of. rewrite try_catch_eq, bind_eq, E. cbn [fst].
  set (ev := EvFetch (queued_request cfg (VNum k))
                     (fetch env (history st) (queued_request cfg (VNum k)))).
  destruct (match fetch env (history st) (queued_request cfg (VNum k)) with
            | Ok res => _
            | Throw e => Throw e
            end) as [rows | e].
  - rewrite bind_eq.
    destruct rows as [ | | b | n | | s | items | fields ]; cbn [iterate ret throw rows_of].
    7:{ destruct (dispatch_run k items Hcap (extend [ev] st)) as (tr & Ed & Hf & Hc).
        rewrite Ed. exists tr. rewrite after_dispatch_extend. repeat split; assumption. }
    6:{ destruct (dispatch_run k (chars s) Hcap (extend [ev] st)) as (tr & Ed & Hf & Hc).
        rewrite Ed. exists tr. rewrite after_dispatch_extend. repeat split; assumption. }
    all: exists [EvConsoleError [VStr "[POLL] error:";
                                 VStr (err_message (TypeError "rows is not iterable"))]].
    all: rewrite taken_nil, after_dispatch_nothing.
    all: unfold console_error, emit, modify; rewrite record_extend, extend_extend.
    all: repeat split.
  - exists [EvConsoleError [VStr "[POLL] error:"; VStr (err_message e)]].
    cbn [rows_of]. rewrite taken_nil, after_dispatch_nothing.
    unfold console_error, emit, modify; rewrite record_extend, extend_extend.
    repeat split.
Qed.


(** What [connectClient] leaves untouched. *)
Lemma connectClient_frame st :
  exists tr,
    history (snd (connectClient env cfg st)) = (history st ++ tr)%list /\
    fetches tr = [] /\
    inFlight (snd (connectClient env cfg st)) = inFlight st /\
    pending (snd (connectClient env cfg st)) = pending st.
Proof.
  unfold connectClient.
  destruct (connect_loop_run env (WS_DEFAULTS cfg) st)
    as [(tr & before & url & after & failures & E & _ & _ & _ & _ & Hq)
       | (tr & E & _ & _ & Hq)];
    rewrite E; exists tr; repeat split; assumption.
Qed.

(** The three ways a cycle can go. *)
Lemma pollLoop_run st :
  (needs_connect env st = false /\ pollLoop env cfg st = poll_queue env cfg st) \/
  (needs_connect env st = true /\
   outcome_of (connectClient env cfg) st = Ok tt /\
   pollLoop env cfg st = poll_queue env cfg (snd (connectClient env cfg st))) \/
  (needs_connect env st = true /\
   exists e,
     outcome_of (connectClient env cfg) st = Throw e /\
     pollLoop env cfg st
     = (Ok tt,
        record (EvConsoleError [VStr "[XRPL] reconnect failed:"; VStr (err_message e)])
               (snd (connectClient env cfg st)))).
Proof.
  unfold pollLoop, outcome_of. rewrite bind_eq. cbn [get_state].
  destruct (needs_connect env st) eqn:Hn.
  - right. rewrite bind_eq, try_catch_eq, bind_eq.
    destruct (connectClient env cfg st) as [[[]|e] st1] eqn:E; cbn [fst snd ret negb].
    + left. repeat split.
    + right. split; [reflexivity | ]. exists e. split; reflexivity.
  - left. split; [reflexivity | ]. rewrite bind_eq. reflexivity.
Qed.

Lemma taken_length k n rows : 0 <= k - n -> n + Z.of_nat (List.length (taken k n rows)) <= k.
Proof.
  intros H. unfold taken.
  pose proof (firstn_le_length (Z.to_nat (k - n)) (filter live rows)). lia.
Qed.

Lemma In_firstn {A} (x : A) n : forall l, In x (firstn n l) -> In x l.
Proof.
  induction n as [|n IH]; intros [|y l] H; simpl in H; try contradiction.
  destruct H as [H | H]; [now left | right; now apply IH].
Qed.

Lemma taken_live k n rows row : In row (taken k n rows) -> nullish row = false.
Proof.
  unfold taken. intros H. apply In_firstn in H. apply filter_In in H.
  destruct H as [_ H]. unfold live in H. now destruct (nullish row).
Qed.


Lemma pollLoop_connected st :
  needs_connect env st = false \/ outcome_of (connectClient env cfg) st = Ok tt ->
  pollLoop env cfg st = poll_queue env cfg (connected_state env cfg st) /\
  exists trc,
    history (connected_state env cfg st) = (history st ++ trc)%list /\
    fetches trc = [] /\
    inFlight (connected_state env cfg st) = inFlight st /\
    pending (connected_state env cfg st) = pending st /\
    (needs_connect env st = false -> connects trc = []).
Proof.
  intros H. unfold connected_state.
  destruct (pollLoop_run st) as [[Hn E] | [(Hn & Hc & E) | (Hn & e & Hc & E)]].
  - rewrite Hn. split; [exact E | ].
    exists []. rewrite app_nil_r. repeat split.
  - rewrite Hn. split; [exact E | ].
    destruct (connectClient_frame st) as (trc & Hh & Hf & Hi & Hp).
    exists trc. repeat split; try assumption. congruence.
  - destruct H as [H | H]; congruence.
Qed.

(** Claim C6: one cycle of [pollLoop].  It connects only when there is no
    client or the client is not connected, and when that fails it logs and
    stops; with the cap reached it stops before any query; otherwise it asks
    for the queued rows with the cap as limit and gives a slot to the rows in
    order, each started and not awaited, until the cap is reached. *)
Theorem pollLoop_cycle st k :
  cap env cfg = VNum k ->
  outcome_of (pollLoop env cfg) st = Ok tt /\
  (needs_connect env st = false ->
   connects (trace_of (pollLoop env cfg) st) = []) /\
  (needs_connect env st = true ->
   forall e,
     outcome_of (connectClient env cfg) st = Throw e ->
     snd (pollLoop env cfg st)
     = record (EvConsoleError [VStr "[XRPL] reconnect failed:"; VStr (err_message e)])
              (snd (connectClient env cfg st)) /\
     fetches (trace_of (pollLoop env cfg) st) = [] /\
     inFlight (snd (pollLoop env cfg st)) = inFlight st /\
     pending (snd (pollLoop env cfg st)) = pending st) /\
  (needs_connect env st = false \/ outcome_of (connectClient env cfg) st = Ok tt ->
   (k <= inFlight st ->
    snd (pollLoop env cfg st) = connected_state env cfg st /\
    fetches (trace_of (pollLoop env cfg) st) = [] /\
    pending (snd (pollLoop env cfg st)) = pending st) /\
   (inFlight st < k ->
    fetches (trace_of (pollLoop env cfg) st) = [queued_request cfg (VNum k)] /\
    forall items,
      outcome_of (fetchQueued env cfg (VNum k)) (connected_state env cfg st)
      = Ok (VArr items) ->
      pending (snd (pollLoop env cfg st))
      = (pending st ++ taken k (inFlight st) items)%list /\
      inFlight (snd (pollLoop env cfg st))
      = inFlight st + Z.of_nat (List.length (taken k (inFlight st) items)) /\
      inFlight (snd (pollLoop env cfg st)) <= k /\
      (forall row, In row (taken k (inFlight st) items) -> nullish row = false))).
Proof.
  intros Hcap.
  split; [| split; [| split]].
  - unfold outcome_of.
    destruct (pollLoop_run st) as [[Hn E] | [(Hn & Hc & E) | (Hn & e & Hc & E)]]; rewrite E.
    + destruct (poll_queue_run k st Hcap) as [[_ Eq] | [_ (tr & Eq & _)]];
        now rewrite Eq.
    + destruct (poll_queue_run k (snd (connectClient env cfg st)) Hcap)
        as [[_ Eq] | [_ (tr & Eq & _)]]; now rewrite Eq.
    + reflexivity.
  - intros Hn.
    destruct (pollLoop_connected st (or_introl Hn)) as (E & trc & Hh & Hf & Hi & Hp & Hc).
    specialize (Hc Hn).
    destruct (poll_queue_run k (connected_state env cfg st) Hcap)
      as [[_ Eq] | [_ (tr & Eq & Hqf & Hqc)]].
    + rewrite (trace_of_history _ st trc) by (rewrite E, Eq; exact Hh). exact Hc.
    + erewrite (trace_of_history _ st) by
        (rewrite E, Eq; cbn [snd after_dispatch history]; rewrite Hh, <- app_assoc;
         reflexivity).
      rewrite connects_app, Hc. cbn. exact Hqc.
  - intros Hn e He.
    destruct (pollLoop_run st) as [[Hn' E] | [(_ & Hc & E) | (_ & e' & Hc & E)]];
      try congruence.
    assert (e' = e) by congruence. subst e'.
    destruct (connectClient_frame st) as (trc & Hh & Hf & Hi & Hp).
    rewrite E. cbn [snd]. split; [reflexivity | split; [| split]].
    + erewrite (trace_of_history _ st) by
        (rewrite E; cbn [snd record history]; rewrite Hh, <- app_assoc; reflexivity).
      rewrite fetches_app, Hf. reflexivity.
    + exact Hi.
    + exact Hp.
  - intros Hok.
    destruct (pollLoop_connected st Hok) as (E & trc & Hh & Hf & Hi & Hp & _).
    split.
    + intros Hfull.
      destruct (poll_queue_run k (connected_state env cfg st) Hcap)
        as [[_ Eq] | [Hfree _]]; [| lia].
      rewrite E, Eq. cbn [snd]. split; [reflexivity | split; [| exact Hp]].
      rewrite (trace_of_history _ st trc) by (rewrite E, Eq; exact Hh). exact Hf.
    + intros Hfree.
      destruct (poll_queue_run k (connected_state env cfg st) Hcap)
        as [[Hfull _] | [_ (tr & Eq & Hqf & Hqc)]]; [lia | ].
      split.
      * erewrite (trace_of_history _ st) by
          (rewrite E, Eq; cbn [snd after_dispatch history]; rewrite Hh, <- app_assoc;
           reflexivity).
        rewrite fetches_app, Hf.
        change (fetches (?x :: tr)) with (queued_request cfg (VNum k) :: fetches tr).
        now rewrite Hqf.
      * intros items Hrows. rewrite E, Eq, Hrows. cbn [snd after_dispatch pending inFlight rows_of].
        rewrite Hi, Hp. split; [reflexivity | split; [reflexivity | split]].
        -- apply taken_length. lia.
        -- apply taken_live.
Qed.

End PollLoop.

(** ** Concrete runs *)

Section Runs.

Import Scenario.

Ltac in_trace := vm_compute; repeat ((left; reflexivity) || right).

Lemma successful_submission_reported_witness :
  In (EvSubmit blob (Ok (receipt "tesSUCCESS" "ABC123")))
     (trace_of (processOne world_success cfg r1) booted) /\
  engine_of (receipt "tesSUCCESS" "ABC123") = VStr "tesSUCCESS" /\
  posted_with "processing" (trace_of (processOne world_success cfg r1) booted)
  = [VObj [("request_id", VStr "r1"); ("status", VStr "processing");
           ("webhook_secret", VStr "s1")]] /\
  posted_with "completed" (trace_of (processOne world_success cfg r1) booted)
  = [VObj [("request_id", VStr "r1"); ("status", VStr "completed");
           ("tx_id", VStr "ABC123"); ("webhook_secret", VStr "s1")]].
Proof.
  assert (H1 : In (EvSubmit blob (Ok (receipt "tesSUCCESS" "ABC123")))
                  (trace_of (processOne world_success cfg r1) booted)) by in_trace.
  assert (H2 : engine_of (receipt "tesSUCCESS" "ABC123") = VStr "tesSUCCESS")
    by reflexivity.
  split; [exact H1 | split; [exact H2 |]].
  destruct (successful_submission_reported world_success cfg r1 booted blob
              (receipt "tesSUCCESS" "ABC123") H1 H2) as (Hp & Hc & _).
  split; [exact Hp | exact Hc].
Defined.

Lemma engine_failure_reported_witness :
  In (EvSubmit blob (Ok (receipt "tecUNFUNDED_PAYMENT" "ABC123")))
     (trace_of (processOne world_unfunded cfg r1) booted) /\
  engine_of (receipt "tecUNFUNDED_PAYMENT" "ABC123") <> VStr "tesSUCCESS" /\
  posted (trace_of (processOne world_unfunded cfg r1) booted)
  = [VObj [("request_id", VStr "r1"); ("status", VStr "processing");
           ("webhook_secret", VStr "s1")];
     VObj [("request_id", VStr "r1"); ("status", VStr "failed");
           ("error_message", VStr "Engine result: tecUNFUNDED_PAYMENT");
           ("webhook_secret", VStr "s1")]].
Proof.
  assert (H1 : In (EvSubmit blob (Ok (receipt "tecUNFUNDED_PAYMENT" "ABC123")))
                  (trace_of (processOne world_unfunded cfg r1) booted)) by in_trace.
  assert (H2 : engine_of (receipt "tecUNFUNDED_PAYMENT" "ABC123") <> VStr "tesSUCCESS")
    by (vm_compute; discriminate).
  split; [exact H1 | split; [exact H2 |]].
  exact (proj1 (engine_failure_reported world_unfunded cfg r1 booted blob
                  (receipt "tecUNFUNDED_PAYMENT" "ABC123") H1 H2)).
Defined.

Lemma processing_failure_aborts_witness :
  In (EvFetch (processing_report cfg r1) (refusal 403 "bad secret"))
     (trace_of (processOne world_processing_refused cfg r1) booted) /\
  post_failed (refusal 403 "bad secret") = true /\
  ledger_steps (trace_of (processOne world_processing_refused cfg r1) booted) = [].
Proof.
  assert (H1 : In (EvFetch (processing_report cfg r1) (refusal 403 "bad secret"))
                  (trace_of (processOne world_processing_refused cfg r1) booted))
    by in_trace.
  assert (H2 : post_failed (refusal 403 "bad secret") = true) by reflexivity.
  split; [exact H1 | split; [exact H2 |]].
  exact (proj1 (processing_failure_aborts world_processing_refused cfg r1 booted
                  (refusal 403 "bad secret") H1 H2)).
Defined.


Lemma logged_and_swallowed_end tr ev n :
  logged_and_swallowed tr ev n -> nth_error (rev tr) 2 = Some ev.
Proof.
  intros (before & args & ->). rewrite rev_app_distr. reflexivity.
Qed.

(** Claim C4 as it is worded fails twice.  When the webhook answers the
    "completed" report of a payment that went through with status 500, a
    "failed" report is posted after it; and an error without message is
    reported under its name. *)
Lemma terminal_report_failure_counterexample :
  ~ terminal_failures_swallowed world_completed_refused cfg r1 booted /\
  ~ failure_message_is_message world_silent_error cfg r1 booted.
Proof.
  split.
  - intros H.
    specialize (H (completed_report cfg r1 (receipt "tesSUCCESS" "ABC123"))
                  (refusal 500 "webhook down")
                  (completed_body (VStr "r1") (VStr "ABC123") (VStr "s1"))).
    apply logged_and_swallowed_end in H.
    + vm_compute in H. discriminate H.
    + in_trace.
    + reflexivity.
    + reflexivity.
    + reflexivity.
  - intros H.
    specialize (H (mkErr "NotConnectedError" "") eq_refl (VStr "NotConnectedError")).
    assert (HIn : In (VStr "NotConnectedError")
                     (failure_messages
                        (trace_of (processOne world_silent_error cfg r1) booted)))
      by (vm_compute; auto).
    apply H in HIn. vm_compute in HIn. discriminate HIn.
Qed.

Lemma failure_reporting_is_best_effort_witness :
  logged_and_swallowed
    (trace_of (processOne world_failed_refused cfg r1) booted)
    (EvFetch (failed_report cfg r1 (Error "Engine result: tecUNFUNDED_PAYMENT"))
             (refusal 500 "webhook down"))
    0 /\
  (exists e,
      postWebhook_result (refusal 500 "webhook down") = Throw e /\
      posted_with "failed" (trace_of (processOne world_completed_refused cfg r1) booted)
      = [failed_body (VStr "r1") (slice0 500 (message_or_error e)) (VStr "s1")]) /\
  VStr "NotConnectedError"
  = VStr (slice0 500 (message_or_error (mkErr "NotConnectedError" ""))).
Proof.
  split; [| split].
  - apply (proj1 (proj2 (failure_reporting_is_best_effort world_failed_refused cfg r1 booted)))
      with (body := failed_body (VStr "r1") "Engine result: tecUNFUNDED_PAYMENT" (VStr "s1")).
    + in_trace.
    + reflexivity.
    + reflexivity.
    + reflexivity.
  - apply (proj1 (proj2 (proj2
             (failure_reporting_is_best_effort world_completed_refused cfg r1 booted))))
      with (req := completed_report cfg r1 (receipt "tesSUCCESS" "ABC123"))
           (body := completed_body (VStr "r1") (VStr "ABC123") (VStr "s1")).
    + in_trace.
    + reflexivity.
    + reflexivity.
    + reflexivity.
  - apply (proj2 (proj2 (proj2
             (failure_reporting_is_best_effort world_silent_error cfg r1 booted)))).
    + reflexivity.
    + vm_compute. auto.
Defined.


Lemma pollLoop_cycle_witness :
  cap world_four_rows cfg = VNum 2 /\
  pending (snd (pollLoop world_four_rows cfg booted)) = [r1; r2] /\
  inFlight (snd (pollLoop world_four_rows cfg booted)) = 2 /\
  snd (pollLoop world_four_rows cfg busy) = busy /\
  fetches (trace_of (pollLoop world_four_rows cfg_down) fresh) = [].
Proof.
  assert (Hcap : cap world_four_rows cfg = VNum 2) by reflexivity.
  assert (Hcap' : cap world_four_rows cfg_down = VNum 2) by reflexivity.
  split; [exact Hcap | ].
  destruct (pollLoop_cycle world_four_rows cfg booted 2 Hcap) as (_ & _ & _ & H).
  destruct (H (or_introl eq_refl)) as (_ & Hfree).
  destruct (Hfree ltac:(reflexivity)) as (_ & Hrows).
  destruct (Hrows [r1; VNull; r2; r3] eq_refl) as (Hp & Hi & _).
  split; [exact Hp | split; [exact Hi | ]].
  destruct (pollLoop_cycle world_four_rows cfg busy 2 Hcap) as (_ & _ & _ & H').
  destruct (H' (or_introl eq_refl)) as (Hfull & _).
  destruct (Hfull ltac:(vm_compute; discriminate)) as (Hs & _).
  split; [exact Hs | ].
  destruct (pollLoop_cycle world_four_rows cfg_down fresh 2 Hcap') as (_ & _ & Hdown & _).
  destruct (Hdown eq_refl (Error "No XRPL server reachable") eq_refl) as (_ & Hf & _).
  exact Hf.
Defined.

Lemma fetchQueued_contract_witness :
  SUPABASE_URL cfg = Some "https://db.example" /\
  SUPABASE_SERVICE_ROLE_KEY cfg = Some "service-key" /\
  fetches (trace_of (fetchQueued world_four_rows cfg (VNum 2)) booted)
  = [queued_request cfg (VNum 2)] /\
  req_method (queued_request cfg (VNum 2)) = "GET" /\
  req_url (queued_request cfg (VNum 2))
  = "https://db.example/rest/v1/payout_requests?status=eq.queued&chain=eq.XRP&order=requested_at.asc&limit=2" /\
  req_headers (queued_request cfg (VNum 2))
  = [("apikey", VStr "service-key");
     ("Authorization", VStr "Bearer service-key");
     ("Content-Type", VStr "application/json")] /\
  outcome_of (fetchQueued world_backend_down cfg (VNum 2)) booted
  = Throw (Error "Fetch queued failed: 503 upstream down") /\
  outcome_of (fetchQueued world_four_rows cfg (VNum 2)) booted
  = Ok (VArr [r1; VNull; r2; r3]).
Proof.
  destruct (fetchQueued_contract world_four_rows cfg booted 2)
    as (Ht & Hm & _ & Hurl & _ & Hhead & _ & _ & Hok).
  destruct (fetchQueued_contract world_backend_down cfg booted 2)
    as (_ & _ & _ & _ & _ & _ & _ & Hbad & _).
  split; [reflexivity | split; [reflexivity | ]].
  split; [rewrite Ht; reflexivity | ].
  split; [exact Hm | ].
  split; [exact (Hurl "https://db.example" eq_refl) | ].
  split; [exact (Hhead "service-key" eq_refl) | ].
  split.
  - apply (Hbad (mkResponse 503 (Ok "upstream down") no_json) "upstream down").
    + reflexivity.
    + cbn. lia.
    + reflexivity.
  - apply (Hok (mkResponse 200 (Ok "[...]") (Ok (VArr [r1; VNull; r2; r3])))).
    + reflexivity.
    + cbn. lia.
Defined.

Lemma process_endpoint_gate_witness :
  process_handler cfg (Some "Bearer control-token")
  = (mkReply 200 (VObj [("ok", VBool true); ("started", VBool true)]),
     [mkTimer CbPollLoop 50]) /\
  process_handler cfg (Some "Bearer control-tokens")
  = (mkReply 401 (VObj [("ok", VBool false); ("error", VStr "Unauthorized")]), []) /\
  process_handler cfg None
  = (mkReply 401 (VObj [("ok", VBool false); ("error", VStr "Unauthorized")]), []) /\
  process_handler cfg_no_endpoint None
  = (mkReply 200 (VObj [("ok", VBool true); ("started", VBool true)]),
     [mkTimer CbPollLoop 50]).
Proof.
  assert (Hne : "control-token" <> "") by discriminate.
  split; [| split; [| split]].
  - apply (proj1 (process_endpoint_gate cfg (Some "Bearer control-token"))
             "control-token" eq_refl Hne).
    reflexivity.
  - apply (proj1 (process_endpoint_gate cfg (Some "Bearer control-tokens"))
             "control-token" eq_refl Hne).
    discriminate.
  - apply (proj1 (process_endpoint_gate cfg None) "control-token" eq_refl Hne).
    discriminate.
  - apply (proj2 (process_endpoint_gate cfg_no_endpoint None)).
    left. reflexivity.
Defined.

Lemma no_endpoint_without_configuration_witness :
  XRPL_SERVERS cfg_no_endpoint = None /\
  XRPL_SERVER cfg_no_endpoint = None /\
  WS_DEFAULTS cfg_no_endpoint = [] /\
  outcome_of (connectClient world_success cfg_no_endpoint) fresh
  = Throw (Error "No XRPL server reachable") /\
  trace_of (connectClient world_success cfg_no_endpoint) fresh = [].
Proof.
  split; [reflexivity | split; [reflexivity | ]].
  exact (no_endpoint_without_configuration world_success cfg_no_endpoint fresh
           eq_refl eq_refl).
Defined.

End Runs.

(** * Further properties *)

(** ** More on the payout processor *)

Section ProcessorMore.

Local Arguments slice0 : simpl never.

Variable env : Env.
Variable cfg : config.
Variable row : value.

Ltac unpack_stage :=
  repeat match goal with
         | H : submitted _ _ _ _ _ _ _ _ _ _ _ |- _ => destruct H as (H & ?)
         | H : was_signed _ _ _ _ _ _ _ _ _ _ |- _ => destruct H as (H & ? & ?)
         | H : autofilled _ _ _ _ _ _ _ _ _ |- _ => destruct H as (H & ? & ?)
         | H : built _ _ _ _ _ _ _ |- _ => destruct H as (H & ? & ?)
         | H : reported _ _ _ _ _ |- _ => destruct H as (? & ? & ?)
         end.

(** A row that is [null] or [undefined] is never reported and never paid:
    the destructuring throws, the report of the failure throws on [row.id],
    both are logged, and the slot is released. *)
Theorem null_row_is_only_logged st :
  nullish row = true ->
  outcome_of (processOne env cfg row) st = Ok tt /\
  trace_of (processOne env cfg row) st
  = [EvInFlight (inFlight st + 1);
     EvConsoleError
       [VStr "[PAYOUT] Failed"; VUndefined;
        VStr ("Cannot destructure property 'id' of 'row' as it is " ++ toString row ++ ".")];
     EvConsoleError
       [VStr "[WEBHOOK] Error reporting failure:";
        VStr ("Cannot read properties of " ++ toString row ++ " (reading 'id')")];
     EvInFlight (inFlight st)] /\
  snd (processOne env cfg row st)
  = extend (trace_of (processOne env cfg row) st) st.
Proof.
  intros Hrow.
  destruct (processOne_run env cfg row st) as (tr & E & P).
  rewrite (trace_of_finished _ _ _ _ _ E). unfold outcome_of. rewrite E. cbn [fst snd].
  attempt_cases P; unpack_stage; try congruence.
  unfold payout_failed_log, report_failed_log, opt_chain. rewrite Hrow.
  split; [reflexivity | split; reflexivity].
Qed.


(** Without a wallet (the boot could not load one) a payout is still
    announced as "processing"; the payment then fails on [wallet.classicAddress]
    before any step towards the ledger, and that error is what is reported. *)
Theorem payout_without_wallet st out :
  wallet st = None ->
  In (EvFetch (processing_report cfg row) out) (trace_of (processOne env cfg row) st) ->
  post_failed out = false ->
  ledger_steps (trace_of (processOne env cfg row) st) = [] /\
  posted (trace_of (processOne env cfg row) st)
  = [processing_body (row_id row) (row_secret row);
     failed_body (row_id row)
                 "Cannot read properties of undefined (reading 'classicAddress')"
                 (row_secret row)].
Proof.
  intros Hw.
  destruct (processOne_run env cfg row st) as (tr & E & P).
  rewrite (trace_of_finished _ _ _ _ _ E).
  intros HIn Hout.
  attempt_cases P; unpack_stage.
  all: try (cbn [wallet started] in *; congruence).
  all: unfold_reports; split_in HIn.
  all: try (injection HIn; intros; subst; congruence).
  all: split; reflexivity.
Qed.

(** One attempt submits at most once and posts each status at most once:
    there is no retry inside [processOne]. *)
Theorem no_retry_within_attempt st :
  (List.length (submissions (trace_of (processOne env cfg row) st)) <= 1)%nat /\
  (List.length (posted_with "processing" (trace_of (processOne env cfg row) st)) <= 1)%nat /\
  (List.length (posted_with "completed" (trace_of (processOne env cfg row) st)) <= 1)%nat /\
  (List.length (posted_with "failed" (trace_of (processOne env cfg row) st)) <= 1)%nat /\
  List.length (posted (trace_of (processOne env cfg row) st))
  = (List.length (posted_with "processing" (trace_of (processOne env cfg row) st))
     + List.length (posted_with "completed" (trace_of (processOne env cfg row) st))
     + List.length (posted_with "failed" (trace_of (processOne env cfg row) st)))%nat.
Proof.
  destruct (processOne_run env cfg row st) as (tr & E & P).
  rewrite (trace_of_finished _ _ _ _ _ E).
  attempt_cases P; cbn; repeat split; lia.
Qed.

(** "completed" is reported only for a payment the ledger answered with
    "tesSUCCESS", and then with the hash of that answer. *)
Theorem completed_only_after_success st body :
  In body (posted_with "completed" (trace_of (processOne env cfg row) st)) ->
  exists blob result,
    In (EvSubmit blob (Ok result)) (trace_of (processOne env cfg row) st) /\
    engine_of result = VStr "tesSUCCESS" /\
    body = completed_body (row_id row) (txHash_of result) (row_secret row).
Proof.
  destruct (processOne_run env cfg row st) as (tr & E & P).
  rewrite (trace_of_finished _ _ _ _ _ E).
  intros HIn.
  attempt_cases P.
  all: unfold_reports; unfold posted_with in HIn; simpl in HIn.
  all: try contradiction.
  all: destruct HIn as [HIn | []]; subst body.
  all: match goal with
       | H : is_string (engine_of ?r) _ = true |- _ =>
           apply is_string_spec in H; exists (get_prop signed "tx_blob"), r
       end.
  all: split; [simpl; auto 10 | split; [assumption | reflexivity]].
Qed.

(** A row that can be destructured always gets its "processing" report
    first, and after it a report that ends the payout, "completed" or
    "failed", is always posted; a "failed" report is posted exactly when the
    [try] block threw. *)
Theorem live_row_gets_terminal_report st :
  nullish row = false ->
  exists second rest,
    posted (trace_of (processOne env cfg row) st)
    = processing_body (row_id row) (row_secret row) :: second :: rest /\
    terminal second = true /\
    (outcome_of (processOne_try env cfg row) (started st) = Ok tt <->
     posted_with "failed" (trace_of (processOne env cfg row) st) = []).
Proof.
  intros Hrow.
  destruct (processOne_run env cfg row st) as (tr & E & P).
  rewrite (trace_of_finished _ _ _ _ _ E).
  remember (outcome_of (processOne_try env cfg row) (started st)) as r eqn:Hr.
  attempt_cases P; try congruence.
  all: do 2 eexists; split; [reflexivity | split; [reflexivity | ]].
  all: split; intros Hx; try reflexivity; try discriminate Hx.
Qed.

End ProcessorMore.

(** ** The webhook reporter *)

(** [postWebhook] sends one POST with the body as JSON.  On an answer in
    200-299 it never throws: it returns what [res.json()] gives, or [{ok: true}]
    when the answer holds no JSON.  On another answer it throws with the
    status and the text, and a rejection of [fetch] goes through as it is. *)
Theorem postWebhook_contract env cfg body st :
  trace_of (postWebhook env cfg body) st
  = [EvFetch (webhook_request cfg body)
             (fetch env (history st) (webhook_request cfg body))] /\
  req_method (webhook_request cfg body) = "POST" /\
  req_body (webhook_request cfg body) = Some body /\
  req_headers (webhook_request cfg body) = [("Content-Type", VStr "application/json")] /\
  (forall res,
      fetch env (history st) (webhook_request cfg body) = Ok res ->
      200 <= res_status res <= 299 ->
      (forall v, res_json res = Ok v -> outcome_of (postWebhook env cfg body) st = Ok v) /\
      (forall e, res_json res = Throw e ->
                 outcome_of (postWebhook env cfg body) st = Ok (VObj [("ok", VBool true)]))) /\
  (forall res t,
      fetch env (history st) (webhook_request cfg body) = Ok res ->
      ~ (200 <= res_status res <= 299) ->
      res_text res = Ok t ->
      outcome_of (postWebhook env cfg body) st
      = Throw (Error ("Webhook failed: " ++ string_of_Z (res_status res) ++ " " ++ t))) /\
  (forall e,
      fetch env (history st) (webhook_request cfg body) = Throw e ->
      outcome_of (postWebhook env cfg body) st = Throw e).
Proof.
  pose proof (postWebhook_run env cfg body st) as E.
  split; [now apply trace_of_extend with (r := fst (postWebhook env cfg body st));
          rewrite E | ].
  split; [reflexivity | split; [reflexivity | split; [reflexivity | ]]].
  unfold outcome_of. rewrite E. cbn [fst].
  split; [| split].
  - intros res Hf Hs. rewrite Hf. cbn [postWebhook_result].
    apply res_ok_spec in Hs. rewrite Hs. cbn [negb].
    split; [intros v -> | intros e ->]; reflexivity.
  - intros res t Hf Hs Ht. rewrite Hf. cbn [postWebhook_result].
    destruct (res_ok res) eqn:Hok; [apply res_ok_spec in Hok; contradiction | ].
    cbn [negb]. now rewrite Ht.
  - intros e ->. reflexivity.
Qed.

(** ** Configuration check *)

Lemma provided_spec x : provided x = true <-> exists s, x = Some s /\ s <> "".
Proof.
  unfold provided. destruct x as [s|]; simpl.
  - destruct (String.eqb_spec s ""); simpl; split.
    + discriminate.
    + intros (s' & [= <-] & H). contradiction.
    + intros _. now exists s.
    + reflexivity.
  - split; [discriminate | intros (s & H & _); discriminate H].
Qed.

Lemma require_env_provided name x :
  provided x = true -> require_env name x = Ok tt.
Proof. unfold require_env, provided. now intros ->. Qed.

Lemma require_env_missing name x :
  provided x = false -> require_env name x = Throw (Error (name ++ " missing")).
Proof. unfold require_env, provided. now intros ->. Qed.

(** [ensureEnv] passes exactly when the four required variables are set
    and not empty; otherwise it throws for the first one that is missing, in
    the order URL, service role key, webhook URL, seed. *)
Theorem ensureEnv_names_first_missing cfg :
  (ensureEnv cfg = Ok tt <->
   provided (SUPABASE_URL cfg) = true /\
   provided (SUPABASE_SERVICE_ROLE_KEY cfg) = true /\
   provided (SUPABASE_WEBHOOK_URL cfg) = true /\
   provided (XRP_HOT_WALLET_SEED cfg) = true) /\
  (provided (SUPABASE_URL cfg) = false ->
   ensureEnv cfg = Throw (Error "SUPABASE_URL missing")) /\
  (provided (SUPABASE_URL cfg) = true ->
   provided (SUPABASE_SERVICE_ROLE_KEY cfg) = false ->
   ensureEnv cfg = Throw (Error "SUPABASE_SERVICE_ROLE_KEY missing")) /\
  (provided (SUPABASE_URL cfg) = true ->
   provided (SUPABASE_SERVICE_ROLE_KEY cfg) = true ->
   provided (SUPABASE_WEBHOOK_URL cfg) = false ->
   ensureEnv cfg = Throw (Error "SUPABASE_WEBHOOK_URL missing")) /\
  (provided (SUPABASE_URL cfg) = true ->
   provided (SUPABASE_SERVICE_ROLE_KEY cfg) = true ->
   provided (SUPABASE_WEBHOOK_URL cfg) = true ->
   provided (XRP_HOT_WALLET_SEED cfg) = false ->
   ensureEnv cfg = Throw (Error "XRP_HOT_WALLET_SEED missing")).
Proof.
  unfold ensureEnv.
  destruct (provided (SUPABASE_URL cfg)) eqn:H1;
    [rewrite (require_env_provided _ _ H1) | rewrite (require_env_missing _ _ H1)];
  (destruct (provided (SUPABASE_SERVICE_ROLE_KEY cfg)) eqn:H2;
    [rewrite (require_env_provided _ _ H2) | rewrite (require_env_missing _ _ H2)]);
  (destruct (provided (SUPABASE_WEBHOOK_URL cfg)) eqn:H3;
    [rewrite (require_env_provided _ _ H3) | rewrite (require_env_missing _ _ H3)]);
  (destruct (provided (XRP_HOT_WALLET_SEED cfg)) eqn:H4;
    [rewrite (require_env_provided _ _ H4) | rewrite (require_env_missing _ _ H4)]);
  cbn [and_then];
  (split; [split; [intros H; try discriminate H; tauto | intros (? & ? & ? & ?); congruence]
          | repeat split; intros; congruence]).
Qed.

(** ** The health endpoint and the boot *)

Section SurfaceProps.

Variable env : Env.
Variable cfg : config.
Variable fromSeed : value -> result Wallet.

Lemma connectClient_keeps_wallet st :
  wallet (snd (connectClient env cfg st)) = wallet st.
Proof.
  unfold connectClient.
  destruct (connect_loop_run env (WS_DEFAULTS cfg) st)
    as [(tr & before & url & after & failures & E & _) | (tr & E & _)];
    rewrite E; reflexivity.
Qed.

Lemma connected_state_frame st :
  wallet (connected_state env cfg st) = wallet st /\
  inFlight (connected_state env cfg st) = inFlight st /\
  pending (connected_state env cfg st) = pending st /\
  exists tr,
    history (connected_state env cfg st) = (history st ++ tr)%list /\ fetches tr = [].
Proof.
  unfold connected_state. destruct (needs_connect env st).
  - destruct (connectClient_frame env cfg st) as (tr & Hh & Hf & Hi & Hp).
    repeat split; try assumption.
    + apply connectClient_keeps_wallet.
    + now exists tr.
  - repeat split. exists []. now rewrite app_nil_r.
Qed.

Lemma health_eq st :
  health env cfg fromSeed st
  = match ensureEnv cfg with
    | Throw e => (Ok (failure_reply e), st)
    | Ok _ =>
        match wallet st with
        | Some _ =>
            (Ok (health_report env (connected_state env cfg st)),
             connected_state env cfg st)
        | None =>
            match fromSeed (env_value (XRP_HOT_WALLET_SEED cfg)) with
            | Ok w =>
                (Ok (health_report env (connected_state env cfg (set_wallet (Some w) st))),
                 connected_state env cfg (set_wallet (Some w) st))
            | Throw e => (Ok (failure_reply e), st)
            end
        end
    end.
Proof.
  unfold health, load_wallet, connected_state, try_catch, bind, lift, get_state, modify, ret.
  destruct (ensureEnv cfg) as [[]|e]; [| reflexivity].
  destruct (wallet st) as [w|].
  - destruct (needs_connect env st); [| reflexivity].
    destruct (connectClient env cfg st) as [[[]|e] st2]; reflexivity.
  - destruct (fromSeed (env_value (XRP_HOT_WALLET_SEED cfg))) as [w|e]; [| reflexivity].
    destruct (needs_connect env (set_wallet (Some w) st)); [| reflexivity].
    destruct (connectClient env cfg (set_wallet (Some w) st)) as [[[]|e] st2]; reflexivity.
Qed.

(** The two ways [GET /health] can go. *)
Lemma health_cases st :
  (exists e,
      (ensureEnv cfg = Throw e \/
       (ensureEnv cfg = Ok tt /\ wallet st = None /\
        fromSeed (env_value (XRP_HOT_WALLET_SEED cfg)) = Throw e)) /\
      health env cfg fromSeed st = (Ok (failure_reply e), st)) \/
  (exists w st1,
      ensureEnv cfg = Ok tt /\
      ((wallet st = Some w /\ st1 = st) \/
       (wallet st = None /\ fromSeed (env_value (XRP_HOT_WALLET_SEED cfg)) = Ok w /\
        st1 = set_wallet (Some w) st)) /\
      health env cfg fromSeed st
      = (Ok (health_report env (connected_state env cfg st1)),
         connected_state env cfg st1)).
Proof.
  rewrite health_eq.
  destruct (ensureEnv cfg) as [[]|e] eqn:He.
  2:{ left. exists e. split; [now left | reflexivity]. }
  destruct (wallet st) as [w|] eqn:Hw.
  - right. exists w, st.
    split; [reflexivity | split; [left; split; reflexivity | reflexivity]].
  - destruct (fromSeed (env_value (XRP_HOT_WALLET_SEED cfg))) as [w|e] eqn:Hs.
    + right. exists w, (set_wallet (Some w) st).
      split; [reflexivity | split; [right; repeat split | reflexivity]].
    + left. exists e. split; [right; repeat split | reflexivity].
Qed.

Lemma connectClient_failure_keeps_client st e :
  outcome_of (connectClient env cfg) st = Throw e ->
  client (snd (connectClient env cfg st)) = client st.
Proof.
  unfold connectClient, outcome_of.
  destruct (connect_loop_run env (WS_DEFAULTS cfg) st)
    as [(tr & before & url & after & failures & E & _) | (tr & E & _)];
    rewrite E; cbn [fst snd]; [discriminate | reflexivity].
Qed.

(** [GET /health] always answers, with 200 or 500; it answers 500 exactly
    when a required variable is missing or the seed gives no wallet, the
    error of that being the message sent, and then it has done nothing else. *)
Theorem health_always_answers st :
  exists reply,
    outcome_of (health env cfg fromSeed) st = Ok reply /\
    (reply_status reply = 200 \/ reply_status reply = 500) /\
    (reply_status reply = 500 <->
     ensureEnv cfg <> Ok tt \/
     (wallet st = None /\
      forall w, fromSeed (env_value (XRP_HOT_WALLET_SEED cfg)) <> Ok w)) /\
    (reply_status reply = 500 ->
     snd (health env cfg fromSeed st) = st /\
     exists e,
       reply = failure_reply e /\
       (ensureEnv cfg = Throw e \/
        fromSeed (env_value (XRP_HOT_WALLET_SEED cfg)) = Throw e)).
Proof.
  unfold outcome_of.
  destruct (health_cases st) as [(e & Hwhy & E) | (w & st1 & He & Hw & E)]; rewrite E;
    cbn [fst snd].
  - exists (failure_reply e). split; [reflexivity | split; [now right | split]].
    + split; [intros _ | reflexivity].
      destruct Hwhy as [H | (_ & Hw & Hs)].
      * left. congruence.
      * right. split; [assumption | congruence].
    + intros _. split; [reflexivity | ]. exists e. split; [reflexivity | ]. tauto.
  - eexists. split; [reflexivity | split; [now left | split]].
    + cbn. split; [discriminate | ].
      intros [H | (Hn & Hs)]; [contradiction | ].
      destruct Hw as [(Hw & _) | (_ & Hs' & _)]; [congruence | ].
      exfalso. apply (Hs w). exact Hs'.
    + cbn. discriminate.
Qed.

(** [GET /health] never calls the backend and never touches the counter or
    the suspended payouts; the [inflight] it reports is the counter. *)
Theorem health_only_observes st :
  fetches (trace_of (health env cfg fromSeed) st) = [] /\
  inFlight (snd (health env cfg fromSeed st)) = inFlight st /\
  pending (snd (health env cfg fromSeed st)) = pending st /\
  forall reply,
    outcome_of (health env cfg fromSeed) st = Ok reply ->
    reply_status reply = 200 ->
    get_prop (reply_json reply) "inflight" = VNum (inFlight st).
Proof.
  unfold outcome_of.
  destruct (health_cases st) as [(e & Hwhy & E) | (w & st1 & He & Hw & E)]; rewrite E;
    cbn [fst snd].
  - split; [| split; [reflexivity | split; [reflexivity | ]]].
    + rewrite (trace_of_history _ st []) by (rewrite E; cbn; now rewrite app_nil_r).
      reflexivity.
    + intros reply [= <-]. discriminate.
  - destruct (connected_state_frame st1) as (Hwal & Hi & Hp & tr & Hh & Hf).
    assert (Same : history st1 = history st /\ inFlight st1 = inFlight st
                   /\ pending st1 = pending st).
    { destruct Hw as [(_ & ->) | (_ & _ & ->)]; repeat split. }
    destruct Same as (Sh & Si & Sp).
    split; [| split; [congruence | split; [congruence | ]]].
    + rewrite (trace_of_history _ st tr) by (rewrite E; cbn [snd]; congruence).
      exact Hf.
    + intros reply [= <-] _. cbn. congruence.
Qed.

(** [GET /health] loads the wallet only when there is none: a wallet that
    is there is kept, and after an answer 200 there is a wallet, whose address
    is the [hot_wallet] reported. *)
Theorem health_loads_wallet_once st :
  (forall w, wallet st = Some w -> wallet (snd (health env cfg fromSeed st)) = Some w) /\
  forall reply,
    outcome_of (health env cfg fromSeed) st = Ok reply ->
    reply_status reply = 200 ->
    exists w,
      wallet (snd (health env cfg fromSeed st)) = Some w /\
      (wallet st = None -> fromSeed (env_value (XRP_HOT_WALLET_SEED cfg)) = Ok w) /\
      get_prop (reply_json reply) "hot_wallet" = js_or (VStr (classicAddress w)) VNull.
Proof.
  unfold outcome_of.
  destruct (health_cases st) as [(e & Hwhy & E) | (w & st1 & He & Hw & E)]; rewrite E;
    cbn [fst snd].
  - split; [tauto | ]. intros reply [= <-]. discriminate.
  - destruct (connected_state_frame st1) as (Hwal & _).
    assert (W1 : wallet st1 = Some w).
    { destruct Hw as [(Hw & ->) | (_ & _ & ->)]; [assumption | reflexivity]. }
    split.
    + intros w' Hw'. rewrite Hwal, W1.
      destruct Hw as [(Hw & _) | (Hn & _)]; congruence.
    + intros reply [= <-] _. exists w. split; [congruence | split].
      * intros Hn. destruct Hw as [(Hw & _) | (_ & Hs & _)]; congruence.
      * cbn. unfold hot_wallet. rewrite Hwal, W1. reflexivity.
Qed.

(** An unreachable ledger does not fail [GET /health]: with the
    configuration in order and no client yet, when every endpoint refuses the
    answer is still 200, with [xrpl_connected] false. *)
Theorem health_survives_unreachable_ledger st w e :
  ensureEnv cfg = Ok tt ->
  wallet st = Some w ->
  client st = None ->
  outcome_of (connectClient env cfg) st = Throw e ->
  exists reply,
    outcome_of (health env cfg fromSeed) st = Ok reply /\
    reply_status reply = 200 /\
    get_prop (reply_json reply) "xrpl_connected" = VBool false /\
    get_prop (reply_json reply) "ok" = VBool true.
Proof.
  intros He Hw Hc Hconn. unfold outcome_of.
  destruct (health_cases st) as [(e' & Hwhy & E) | (w' & st1 & _ & Hst & E)].
  - destruct Hwhy as [H | (_ & H & _)]; congruence.
  - destruct Hst as [(_ & ->) | (H & _)]; [| congruence].
    rewrite E. cbn [fst]. eexists. split; [reflexivity | split; [reflexivity | ]].
    assert (Hcl : client (connected_state env cfg st) = None).
    { unfold connected_state, needs_connect. rewrite Hc.
      rewrite (connectClient_failure_keeps_client st e Hconn). exact Hc. }
    cbn. unfold xrpl_connected. rewrite Hcl. split; reflexivity.
Qed.


Lemma boot_eq port st :
  boot env cfg fromSeed port st
  = match ensureEnv cfg, fromSeed (env_value (XRP_HOT_WALLET_SEED cfg)) with
    | Ok _, Ok w =>
        (Ok [mkInterval CbPollLoop (polling_period env cfg)],
         extend [EvConsoleLog [VStr "[BOOT] Hot wallet:"; VStr (classicAddress w)];
                 EvConsoleLog [VStr "[SERVER] Listening on"; port]]
                (set_wallet (Some w) st))
    | Throw e, _ | Ok _, Throw e =>
        (Ok [mkInterval CbPollLoop (polling_period env cfg)],
         extend [EvConsoleError [VStr "[BOOT] env error:"; VStr (err_message e)];
                 EvConsoleLog [VStr "[SERVER] Listening on"; port]] st)
    end.
Proof.
  unfold boot, load_wallet, console_log, console_error, emit, try_catch, bind, lift,
    modify, ret, record, extend, set_wallet.
  destruct (ensureEnv cfg) as [[]|e];
    [destruct (fromSeed (env_value (XRP_HOT_WALLET_SEED cfg))) as [w|e] | ];
    cbn; now rewrite <- app_assoc.
Qed.

(** The boot always sets the one interval that runs [pollLoop], also when
    the configuration is incomplete or the seed is no seed; an empty
    [POLLING_INTERVAL_MS] falls back to 5000. *)
Theorem boot_always_starts_polling port st :
  outcome_of (boot env cfg fromSeed port) st
  = Ok [mkInterval CbPollLoop (polling_period env cfg)] /\
  (POLLING_INTERVAL_MS_env cfg = Some "" -> polling_period env cfg = VNum 5000) /\
  (forall s, POLLING_INTERVAL_MS_env cfg = Some s -> s <> "" ->
             polling_period env cfg = StringToNumber env s) /\
  (POLLING_INTERVAL_MS_env cfg = None -> polling_period env cfg = StringToNumber env "5000").
Proof.
  split; [| split; [| split]].
  - unfold outcome_of. rewrite boot_eq.
    destruct (ensureEnv cfg) as [[]|e];
      [destruct (fromSeed (env_value (XRP_HOT_WALLET_SEED cfg))) | ]; reflexivity.
  - intros H. unfold polling_period, POLLING_INTERVAL_MS. rewrite H. reflexivity.
  - intros s H Hs. unfold polling_period, POLLING_INTERVAL_MS, js_or. rewrite H. cbn.
    destruct (String.eqb_spec s ""); [contradiction | reflexivity].
  - intros H. unfold polling_period, POLLING_INTERVAL_MS. rewrite H. reflexivity.
Qed.

(** The boot loads the wallet only from a complete configuration and a
    good seed; otherwise it logs the error and leaves the wallet as it was, so
    that the service keeps polling without one. *)
Theorem boot_wallet port st :
  (forall w,
      ensureEnv cfg = Ok tt ->
      fromSeed (env_value (XRP_HOT_WALLET_SEED cfg)) = Ok w ->
      wallet (snd (boot env cfg fromSeed port st)) = Some w /\
      trace_of (boot env cfg fromSeed port) st
      = [EvConsoleLog [VStr "[BOOT] Hot wallet:"; VStr (classicAddress w)];
         EvConsoleLog [VStr "[SERVER] Listening on"; port]]) /\
  (forall e,
      ensureEnv cfg = Throw e \/
      (ensureEnv cfg = Ok tt /\ fromSeed (env_value (XRP_HOT_WALLET_SEED cfg)) = Throw e) ->
      wallet (snd (boot env cfg fromSeed port st)) = wallet st /\
      trace_of (boot env cfg fromSeed port) st
      = [EvConsoleError [VStr "[BOOT] env error:"; VStr (err_message e)];
         EvConsoleLog [VStr "[SERVER] Listening on"; port]]) /\
  client (snd (boot env cfg fromSeed port st)) = client st /\
  inFlight (snd (boot env cfg fromSeed port st)) = inFlight st.
Proof.
  split; [| split; [| split]].
  - intros w He Hs.
    rewrite (trace_of_history _ st
               [EvConsoleLog [VStr "[BOOT] Hot wallet:"; VStr (classicAddress w)];
                EvConsoleLog [VStr "[SERVER] Listening on"; port]])
      by (rewrite boot_eq, He, Hs; reflexivity).
    rewrite boot_eq, He, Hs. split; reflexivity.
  - intros e H.
    assert (E : boot env cfg fromSeed port st
                = (Ok [mkInterval CbPollLoop (polling_period env cfg)],
                   extend [EvConsoleError [VStr "[BOOT] env error:"; VStr (err_message e)];
                           EvConsoleLog [VStr "[SERVER] Listening on"; port]] st)).
    { rewrite boot_eq. destruct H as [H | (H1 & H2)].
      - rewrite H. reflexivity.
      - rewrite H1, H2. reflexivity. }
    rewrite (trace_of_history _ st
               [EvConsoleError [VStr "[BOOT] env error:"; VStr (err_message e)];
                EvConsoleLog [VStr "[SERVER] Listening on"; port]])
      by (rewrite E; reflexivity).
    rewrite E. split; reflexivity.
  - rewrite boot_eq.
    destruct (ensureEnv cfg) as [[]|e];
      [destruct (fromSeed (env_value (XRP_HOT_WALLET_SEED cfg))) | ]; reflexivity.
  - rewrite boot_eq.
    destruct (ensureEnv cfg) as [[]|e];
      [destruct (fromSeed (env_value (XRP_HOT_WALLET_SEED cfg))) | ]; reflexivity.
Qed.

End SurfaceProps.

(** ** More on the connector and the poll loop *)

Section LoopMore.

Variable env : Env.
Variable cfg : config.

(** [connectClient] tries no endpoint twice, never calls the backend, and
    leaves the counter, the wallet and the suspended payouts alone. *)
Theorem connectClient_only_connects st :
  (List.length (connects (trace_of (connectClient env cfg) st))
   <= List.length (WS_DEFAULTS cfg))%nat /\
  fetches (trace_of (connectClient env cfg) st) = [] /\
  inFlight (snd (connectClient env cfg st)) = inFlight st /\
  wallet (snd (connectClient env cfg st)) = wallet st /\
  pending (snd (connectClient env cfg st)) = pending st.
Proof.
  unfold connectClient.
  destruct (connect_loop_run env (WS_DEFAULTS cfg) st)
    as [(tr & before & url & after & failures & E & Hu & Hcs & Hm & Hf & Hq)
       | (tr & E & Hm & Hf & Hq)].
  - rewrite (trace_of_history _ st tr) by (rewrite E; reflexivity).
    rewrite E, Hcs, Hu. repeat split; try assumption.
    rewrite !length_app, <- Hm, length_map. cbn. lia.
  - rewrite (trace_of_history _ st tr) by (rewrite E; reflexivity).
    rewrite E. repeat split; try assumption.
    rewrite <- Hm, length_map. lia.
Qed.

Lemma poll_queue_slots k s :
  cap env cfg = VNum k ->
  exists started,
    pending (snd (poll_queue env cfg s)) = (pending s ++ started)%list /\
    inFlight (snd (poll_queue env cfg s)) = inFlight s + Z.of_nat (List.length started) /\
    (forall row, In row started -> nullish row = false) /\
    (inFlight s <= k -> inFlight (snd (poll_queue env cfg s)) <= k).
Proof.
  intros Hcap.
  destruct (poll_queue_run env cfg k s Hcap) as [[Hfull E] | [Hfree (tr & E & _)]];
    rewrite E; cbn [snd].
  - exists []. rewrite app_nil_r. cbn.
    repeat split; try lia; try (intros row []); try contradiction.
  - eexists. cbn [after_dispatch pending inFlight].
    split; [reflexivity | split; [reflexivity | split]].
    + apply taken_live.
    + intros _. apply taken_length. lia.
Qed.

Lemma pollLoop_slots st k :
  cap env cfg = VNum k ->
  exists started,
    pending (snd (pollLoop env cfg st)) = (pending st ++ started)%list /\
    inFlight (snd (pollLoop env cfg st)) = inFlight st + Z.of_nat (List.length started) /\
    (forall row, In row started -> nullish row = false) /\
    (inFlight st <= k -> inFlight (snd (pollLoop env cfg st)) <= k).
Proof.
  intros Hcap.
  destruct (pollLoop_run env cfg st) as [[Hn E] | [(Hn & Hc & E) | (Hn & e & Hc & E)]];
    rewrite E.
  - now apply poll_queue_slots.
  - destruct (connectClient_frame env cfg st) as (trc & _ & _ & Hi & Hp).
    destruct (poll_queue_slots k (snd (connectClient env cfg st)) Hcap)
      as (started & H1 & H2 & H3 & H4).
    exists started. rewrite H1, H2, Hi, Hp. repeat split; try assumption.
    rewrite Hi in H4. rewrite H2, Hi in H4. exact H4.
  - destruct (connectClient_frame env cfg st) as (trc & _ & _ & Hi & Hp).
    exists []. cbn. rewrite Hi, Hp, app_nil_r.
    repeat split; try lia; try (intros row []); try contradiction.
Qed.


(** The state a resumed call leaves: one slot less, [tr] more. *)
Lemma processOne_attempt_run row st :
  exists tr,
    processOne_attempt env cfg row st
    = (Ok tt,
       mkState (client st) (wallet st) (inFlight st - 1) (history st ++ tr)%list (pending st)).
Proof.
  unfold processOne_attempt, try_finally. rewrite try_catch_eq.
  destruct (processOne_try_path env cfg row st) as (r & tr1 & E1 & _). rewrite E1.
  assert (Fin : forall tr,
    inFlight_decr (extend tr st)
    = (Ok tt,
       mkState (client st) (wallet st) (inFlight st - 1)
               (history st ++ tr ++ [EvInFlight (inFlight st - 1)])%list (pending st))).
  { intros tr. unfold inFlight_decr, extend, record, set_inFlight; cbn.
    now rewrite <- app_assoc. }
  destruct r as [[]|err].
  - rewrite Fin. eexists. reflexivity.
  - destruct (processOne_catch_path env cfg row err (extend tr1 st)) as (tr2 & E2 & _).
    rewrite E2, extend_extend, Fin. eexists. reflexivity.
Qed.

Lemma complete_all_run rows :
  forall st,
  exists tr,
    complete_all env cfg rows st
    = (Ok tt,
       mkState (client st) (wallet st) (inFlight st - Z.of_nat (List.length rows))
               (history st ++ tr)%list (pending st)).
Proof.
  induction rows as [|row rest IH]; intros st.
  - exists []. cbn [complete_all ret List.length Z.of_nat].
    destruct st; cbn. now rewrite Z.sub_0_r, app_nil_r.
  - cbn [complete_all]. rewrite bind_eq.
    destruct (processOne_attempt_run row st) as (tr1 & E1). rewrite E1.
    destruct (IH (mkState (client st) (wallet st) (inFlight st - 1)
                          (history st ++ tr1)%list (pending st))) as (tr2 & E2).
    rewrite E2. exists (tr1 ++ tr2)%list. cbn [client wallet inFlight history pending].
    f_equal. f_equal.
    + cbn [List.length]. lia.
    + now rewrite app_assoc.
Qed.

(** Under sequential execution the slots a cycle takes are all given back:
    after [pollLoop] and the completion of every suspended payout, nothing is
    suspended and the counter is lower than before the cycle by the number of
    payouts that were suspended then; with none suspended before, the counter
    is back at its value. *)
Theorem poll_then_complete_restores_counter st k :
  cap env cfg = VNum k ->
  outcome_of (pollLoop env cfg ;; complete_pending env cfg) st = Ok tt /\
  pending (snd ((pollLoop env cfg ;; complete_pending env cfg) st)) = [] /\
  inFlight (snd ((pollLoop env cfg ;; complete_pending env cfg) st))
  = inFlight st - Z.of_nat (List.length (pending st)) /\
  (pending st = [] ->
   inFlight (snd ((pollLoop env cfg ;; complete_pending env cfg) st)) = inFlight st).
Proof.
  intros Hcap.
  destruct (pollLoop_slots st k Hcap) as (started & Hp & Hi & _).
  assert (Hok : outcome_of (pollLoop env cfg) st = Ok tt).
  { unfold outcome_of.
    destruct (pollLoop_run env cfg st) as [[Hn E] | [(Hn & Hc & E) | (Hn & e & Hc & E)]];
      rewrite E.
    - destruct (poll_queue_run env cfg k st Hcap) as [[_ Eq] | [_ (tr & Eq & _)]];
        now rewrite Eq.
    - destruct (poll_queue_run env cfg k (snd (connectClient env cfg st)) Hcap)
        as [[_ Eq] | [_ (tr & Eq & _)]]; now rewrite Eq.
    - reflexivity. }
  unfold outcome_of in *. rewrite bind_eq.
  destruct (pollLoop env cfg st) as [r st1]. cbn [fst snd] in *. subst r.
  unfold complete_pending. rewrite bind_eq. cbn [get_state]. rewrite bind_eq. cbn [modify].
  destruct (complete_all_run (pending st1) (clear_pending st1)) as (tr & E). rewrite E.
  cbn [fst snd pending inFlight clear_pending].
  assert (Hfinal : inFlight st1 - Z.of_nat (List.length (pending st1))
                   = inFlight st - Z.of_nat (List.length (pending st))).
  { rewrite Hp, Hi, length_app. lia. }
  split; [reflexivity | split; [reflexivity | split; [exact Hfinal | ]]].
  intros Hnone. rewrite Hfinal, Hnone. cbn. lia.
Qed.


Lemma dispatch_unbounded items :
  cap env cfg = VNaN ->
  forall st,
  exists tr,
    dispatch env cfg items st = (Ok tt, after_dispatch st tr (filter live items))
    /\ fetches tr = [].
Proof.
  intros Hcap. induction items as [|row rest IH]; intros st.
  - exists []. cbn [dispatch ret filter]. split; [| reflexivity].
    now rewrite after_dispatch_nothing, extend_nil.
  - cbn [dispatch]. rewrite bind_eq. cbn [get_state]. rewrite Hcap. cbn [ge_number].
    rewrite bind_eq. unfold processOne_start.
    destruct (nullish row) eqn:Hrow.
    + destruct (processOne_nullish env cfg row st Hrow) as (tr0 & E0 & Hf0 & _). rewrite E0.
      destruct (IH (finished tr0 st)) as (tr & E & Hf). rewrite E.
      exists ([EvInFlight (inFlight st + 1)] ++ tr0 ++ [EvInFlight (inFlight st)] ++ tr)%list.
      split.
      * f_equal. unfold after_dispatch, finished, live. cbn.
        rewrite Hrow. cbn [negb]. f_equal.
        rewrite <- !app_assoc. cbn. now rewrite <- !app_assoc.
      * rewrite !fetches_app, Hf0, Hf. reflexivity.
    + rewrite bind_eq.
      change (inFlight_incr st) with (Ok tt, started st).
      cbn [modify].
      destruct (IH (suspend row (started st))) as (tr & E & Hf). rewrite E.
      exists (EvInFlight (inFlight st + 1) :: tr).
      split; [| exact Hf].
      f_equal. unfold after_dispatch, suspend, started, live. cbn.
      rewrite Hrow. cbn [negb List.length]. f_equal.
      * lia.
      * now rewrite <- app_assoc.
      * now rewrite <- app_assoc.
Qed.

(** A [MAX_CONCURRENT] that is no number switches the cap off: the
    comparisons with [NaN] are false, the queue is asked with "limit=NaN", and
    every row that can be destructured is started, however many are in
    flight. *)
Theorem pollLoop_without_numeric_cap st items :
  cap env cfg = VNaN ->
  needs_connect env st = false ->
  outcome_of (fetchQueued env cfg VNaN) st = Ok (VArr items) ->
  fetches (trace_of (pollLoop env cfg) st) = [queued_request cfg VNaN] /\
  req_url (queued_request cfg VNaN)
  = interpolate (SUPABASE_URL cfg)
    ++ "/rest/v1/payout_requests?status=eq.queued&chain=eq.XRP&order=requested_at.asc&limit=NaN" /\
  pending (snd (pollLoop env cfg st)) = (pending st ++ filter live items)%list /\
  inFlight (snd (pollLoop env cfg st))
  = inFlight st + Z.of_nat (List.length (filter live items)).
Proof.
  intros Hcap Hn Hrows.
  destruct (pollLoop_run env cfg st) as [[_ E] | [(Hn' & _) | (Hn' & _)]]; try congruence.
  pose proof (fetchQueued_run env cfg st VNaN ltac:(discriminate)) as Ef.
  unfold outcome_of in Hrows. rewrite Ef in Hrows. cbn [fst] in Hrows.
  rewrite Hrows in Ef.
  assert (Eq : exists tr,
    poll_queue env cfg st
    = (Ok tt,
       after_dispatch st
         (EvFetch (queued_request cfg VNaN)
                  (fetch env (history st) (queued_request cfg VNaN)) :: tr)
         (filter live items))
    /\ fetches tr = []).
  { unfold poll_queue. rewrite bind_eq. cbn [get_state]. rewrite Hcap. cbn [ge_number].
    rewrite try_catch_eq, bind_eq, Ef, bind_eq. cbn [iterate ret].
    destruct (dispatch_unbounded items Hcap
                (extend [EvFetch (queued_request cfg VNaN)
                                 (fetch env (history st) (queued_request cfg VNaN))] st))
      as (tr & Ed & Hf).
    rewrite Ed. exists tr. now rewrite after_dispatch_extend. }
  destruct Eq as (tr & Eq & Hf).
  split; [| split; [| split]].
  - erewrite (trace_of_history _ st) by (rewrite E, Eq; reflexivity).
    change (fetches (?x :: tr)) with (queued_request cfg VNaN :: fetches tr).
    now rewrite Hf.
  - reflexivity.
  - rewrite E, Eq. reflexivity.
  - rewrite E, Eq. reflexivity.
Qed.

(** When the query of the queue fails, or gives something that is no list,
    the cycle logs it and starts nothing. *)
Theorem pollLoop_backend_failure st k :
  cap env cfg = VNum k ->
  needs_connect env st = false ->
  inFlight st < k ->
  (forall e,
      outcome_of (fetchQueued env cfg (VNum k)) st = Throw e ->
      pollLoop env cfg st
      = (Ok tt,
         extend [EvFetch (queued_request cfg (VNum k))
                         (fetch env (history st) (queued_request cfg (VNum k)));
                 EvConsoleError [VStr "[POLL] error:"; VStr (err_message e)]] st)) /\
  (forall fields,
      outcome_of (fetchQueued env cfg (VNum k)) st = Ok (VObj fields) ->
      pollLoop env cfg st
      = (Ok tt,
         extend [EvFetch (queued_request cfg (VNum k))
                         (fetch env (history st) (queued_request cfg (VNum k)));
                 EvConsoleError [VStr "[POLL] error:"; VStr "rows is not iterable"]] st)).
Proof.
  intros Hcap Hn Hfree.
  destruct (pollLoop_run env cfg st) as [[_ E] | [(Hn' & _) | (Hn' & _)]]; try congruence.
  pose proof (fetchQueued_run env cfg st (VNum k) ltac:(discriminate)) as Ef.
  assert (Step : forall r,
    outcome_of (fetchQueued env cfg (VNum k)) st = r ->
    fetchQueued env cfg (VNum k) st
    = (r, extend [EvFetch (queued_request cfg (VNum k))
                          (fetch env (history st) (queued_request cfg (VNum k)))] st)).
  { intros r Hr. unfold outcome_of in Hr. rewrite Ef in Hr. cbn [fst] in Hr.
    now rewrite Ef, Hr. }
  assert (Hge : ge_number (inFlight st) (VNum k) = false).
  { cbn. apply Z.leb_gt. exact Hfree. }
  split.
  - intros e He. rewrite E. unfold poll_queue.
    rewrite bind_eq. cbn [get_state]. rewrite Hcap, Hge.
    rewrite try_catch_eq, bind_eq, (Step _ He).
    unfold console_error, emit, modify. now rewrite record_extend, extend_extend.
  - intros fields He. rewrite E. unfold poll_queue.
    rewrite bind_eq. cbn [get_state]. rewrite Hcap, Hge.
    rewrite try_catch_eq, bind_eq, (Step _ He), bind_eq. cbn [iterate throw].
    unfold console_error, emit, modify. now rewrite record_extend, extend_extend.
Qed.

End LoopMore.

(** ** The list of endpoints *)

Lemma trimStart_starts s :
  trimStart s = EmptyString \/
  exists c rest, trimStart s = String c rest /\ is_space c = false.
Proof.
  induction s as [|c s IH]; cbn [trimStart].
  - now left.
  - destruct (is_space c) eqn:Hc; [exact IH | right; now exists c, s].
Qed.

Lemma trimStart_fixed c rest : is_space c = false -> trimStart (String c rest) = String c rest.
Proof. intros H. cbn [trimStart]. now rewrite H. Qed.

Lemma trimEnd_idempotent s : trimEnd (trimEnd s) = trimEnd s.
Proof.
  induction s as [|c s IH]; cbn [trimEnd]; [reflexivity | ].
  destruct (is_space c && (trimEnd s =? "")%string) eqn:H; [reflexivity | ].
  cbn [trimEnd]. rewrite IH, H. reflexivity.
Qed.

Lemma trimEnd_keeps_start c rest :
  is_space c = false -> trimEnd (String c rest) = String c (trimEnd rest).
Proof. intros H. cbn [trimEnd]. now rewrite H. Qed.

(** [trim] leaves nothing to trim. *)
Lemma trim_idempotent s : trim (trim s) = trim s.
Proof.
  unfold trim.
  destruct (trimStart_starts s) as [-> | (c & rest & -> & Hc)]; [reflexivity | ].
  rewrite (trimEnd_keeps_start c rest Hc), (trimStart_fixed c _ Hc).
  rewrite <- (trimEnd_keeps_start c rest Hc). apply trimEnd_idempotent.
Qed.

Lemma split_comma_pieces p s :
  all_chars (fun c => is_comma c || p c) s = true ->
  forall piece, In piece (split_comma s) -> all_chars p piece = true.
Proof.
  induction s as [|c s IH]; cbn [split_comma all_chars]; intros H piece HIn.
  - destruct HIn as [<- | []]. reflexivity.
  - apply andb_true_iff in H. destruct H as [Hc Hs].
    unfold is_comma in Hc.
    destruct (c =? ",")%char eqn:Hcomma.
    + destruct HIn as [<- | HIn]; [reflexivity | now apply IH].
    + cbn [orb] in Hc.
      destruct (split_comma s) as [|h t] eqn:Hsplit.
      * destruct HIn as [<- | []]. cbn. now rewrite Hc.
      * destruct HIn as [<- | HIn].
        -- cbn. rewrite Hc. apply IH; [assumption | now left].
        -- apply IH; [assumption | now right].
Qed.

Lemma all_chars_true s : all_chars (fun _ => true) s = true.
Proof. induction s; cbn; auto. Qed.

Lemma all_chars_weaken (p q : ascii -> bool) s :
  (forall c, p c = true -> q c = true) -> all_chars p s = true -> all_chars q s = true.
Proof.
  intros Hpq. induction s as [|c s IH]; cbn; [reflexivity | ].
  intros H. apply andb_true_iff in H. destruct H as [Hc Hs].
  now rewrite (Hpq c Hc), IH.
Qed.

Lemma split_comma_without_comma s piece :
  In piece (split_comma s) -> all_chars (fun c => negb (is_comma c)) piece = true.
Proof.
  apply split_comma_pieces.
  apply all_chars_weaken with (p := fun _ => true); [| apply all_chars_true].
  intros c _. now destruct (is_comma c).
Qed.

Lemma trimStart_chars p s : all_chars p s = true -> all_chars p (trimStart s) = true.
Proof.
  induction s as [|c s IH]; cbn [trimStart all_chars]; [reflexivity | ].
  intros H. destruct (is_space c); [| exact H].
  apply andb_true_iff in H. now apply IH.
Qed.

Lemma trimEnd_chars p s : all_chars p s = true -> all_chars p (trimEnd s) = true.
Proof.
  induction s as [|c s IH]; cbn [trimEnd all_chars]; [reflexivity | ].
  intros H. apply andb_true_iff in H. destruct H as [Hc Hs].
  destruct (is_space c && (trimEnd s =? "")%string); [reflexivity | ].
  cbn. now rewrite Hc, IH.
Qed.

Lemma trim_blank s : all_chars is_space s = true -> trim s = "".
Proof.
  unfold trim. induction s as [|c s IH]; cbn [trimStart all_chars]; [reflexivity | ].
  intros H. apply andb_true_iff in H. destruct H as [Hc Hs]. rewrite Hc. now apply IH.
Qed.

(** Every endpoint of the list is a non-empty string.  Those that come from
    [XRPL_SERVERS] hold no comma and no white space around them; without
    [XRPL_SERVERS] the only endpoint there can be is [XRPL_SERVER] as it is
    written. *)
Theorem WS_DEFAULTS_entries cfg url :
  In url (WS_DEFAULTS cfg) ->
  url <> "" /\
  (XRPL_SERVERS cfg <> None ->
   all_chars (fun c => negb (is_comma c)) url = true /\ trim url = url) /\
  (XRPL_SERVERS cfg = None -> XRPL_SERVER cfg = Some url).
Proof.
  unfold WS_DEFAULTS.
  destruct (XRPL_SERVERS cfg) as [s|]; cbn [option_map array_or].
  - intros HIn. apply filter_In in HIn. destruct HIn as [HIn Hne].
    apply in_map_iff in HIn. destruct HIn as (piece & <- & Hpiece).
    split; [| split; [| discriminate]].
    + unfold nonempty in Hne. intros Heq. rewrite Heq in Hne. discriminate Hne.
    + intros _. split; [| apply trim_idempotent].
      unfold trim. apply trimEnd_chars, trimStart_chars.
      now apply split_comma_without_comma with s.
  - unfold singleton_filtered. destruct (XRPL_SERVER cfg) as [s|]; [| intros []].
    intros HIn. apply filter_In in HIn. destruct HIn as [[<- | []] Hne].
    split; [| split; [congruence | reflexivity]].
    unfold nonempty in Hne. intros Heq. rewrite Heq in Hne. discriminate Hne.
Qed.

(** [XRPL_SERVERS] shadows [XRPL_SERVER] even when it names no endpoint:
    set to commas and white space only (or to nothing), it leaves the list
    empty, and [connectClient] throws without trying the endpoint that
    [XRPL_SERVER] names. *)
Theorem blank_XRPL_SERVERS_leaves_no_endpoint env cfg s st :
  XRPL_SERVERS cfg = Some s ->
  all_chars (fun c => is_comma c || is_space c) s = true ->
  WS_DEFAULTS cfg = [] /\
  connectClient env cfg st = (Throw (Error "No XRPL server reachable"), st).
Proof.
  intros Hs Hblank.
  assert (E : WS_DEFAULTS cfg = []).
  { unfold WS_DEFAULTS. rewrite Hs. cbn [option_map array_or].
    pose proof (split_comma_pieces is_space s Hblank) as Hpieces.
    induction (split_comma s) as [|piece rest IH]; [reflexivity | ].
    cbn [map filter].
    rewrite (trim_blank piece) by (apply Hpieces; now left).
    cbn. apply IH. intros p Hp. apply Hpieces. now right. }
  split; [exact E | ].
  unfold connectClient. rewrite E. reflexivity.
Qed.

(** ** Concrete runs of the further properties *)

Section MoreRuns.

Import Scenario Cases.

Ltac in_list := vm_compute; repeat ((left; reflexivity) || right).

Lemma null_row_is_only_logged_witness :
  nullish VNull = true /\
  posted (trace_of (processOne world_success cfg VNull) booted) = [] /\
  inFlight (snd (processOne world_success cfg VNull booted)) = 0.
Proof.
  assert (H : nullish VNull = true) by reflexivity.
  split; [exact H | ].
  destruct (null_row_is_only_logged world_success cfg VNull booted H) as (_ & Ht & Hs).
  rewrite Hs, Ht. split; reflexivity.
Defined.

Lemma payout_without_wallet_witness :
  wallet no_wallet = None /\
  posted (trace_of (processOne world_success cfg r1) no_wallet)
  = [VObj [("request_id", VStr "r1"); ("status", VStr "processing");
           ("webhook_secret", VStr "s1")];
     VObj [("request_id", VStr "r1"); ("status", VStr "failed");
           ("error_message",
            VStr "Cannot read properties of undefined (reading 'classicAddress')");
           ("webhook_secret", VStr "s1")]].
Proof.
  split; [reflexivity | ].
  apply (payout_without_wallet world_success cfg r1 no_wallet processing_accepted).
  - reflexivity.
  - in_list.
  - reflexivity.
Defined.

Lemma completed_only_after_success_witness :
  exists blob result,
    In (EvSubmit blob (Ok result)) (trace_of (processOne world_success cfg r1) booted) /\
    engine_of result = VStr "tesSUCCESS" /\
    completed_body (VStr "r1") (VStr "ABC123") (VStr "s1")
    = completed_body (row_id r1) (txHash_of result) (row_secret r1).
Proof.
  apply (completed_only_after_success world_success cfg r1 booted).
  in_list.
Defined.

Lemma live_row_gets_terminal_report_witness :
  nullish r1 = false /\
  exists second rest,
    posted (trace_of (processOne world_unfunded cfg r1) booted)
    = processing_body (row_id r1) (row_secret r1) :: second :: rest /\
    terminal second = true /\
    (outcome_of (processOne_try world_unfunded cfg r1) (started booted) = Ok tt <->
     posted_with "failed" (trace_of (processOne world_unfunded cfg r1) booted) = []).
Proof.
  split; [reflexivity | ].
  apply (live_row_gets_terminal_report world_unfunded cfg r1 booted). reflexivity.
Defined.

Lemma postWebhook_contract_witness :
  outcome_of (postWebhook world_no_content cfg (VObj [])) booted
  = Ok (VObj [("ok", VBool true)]) /\
  outcome_of (postWebhook world_processing_refused cfg
                          (processing_body (VStr "r1") (VStr "s1"))) booted
  = Throw (Error "Webhook failed: 403 bad secret").
Proof.
  split.
  - destruct (postWebhook_contract world_no_content cfg (VObj []) booted)
      as (_ & _ & _ & _ & Hok & _).
    destruct (Hok (mkResponse 204 (Ok "") no_json) eq_refl ltac:(cbn; lia)) as (_ & Hno).
    exact (Hno _ eq_refl).
  - destruct (postWebhook_contract world_processing_refused cfg
                (processing_body (VStr "r1") (VStr "s1")) booted)
      as (_ & _ & _ & _ & _ & Hbad & _).
    apply (Hbad (mkResponse 403 (Ok "bad secret") no_json) "bad secret").
    + reflexivity.
    + cbn. lia.
    + reflexivity.
Defined.

Lemma ensureEnv_names_first_missing_witness :
  ensureEnv cfg = Ok tt /\
  ensureEnv cfg_no_webhook = Throw (Error "SUPABASE_WEBHOOK_URL missing").
Proof.
  split.
  - apply (proj1 (ensureEnv_names_first_missing cfg)). repeat split.
  - apply (proj1 (proj2 (proj2 (proj2 (ensureEnv_names_first_missing cfg_no_webhook)))));
      reflexivity.
Defined.

Lemma health_always_answers_witness :
  exists reply,
    outcome_of (health world_success cfg_bad_seed Cases.fromSeed) cold = Ok reply /\
    reply_status reply = 500 /\
    snd (health world_success cfg_bad_seed Cases.fromSeed cold) = cold.
Proof.
  destruct (health_always_answers world_success cfg_bad_seed Cases.fromSeed cold)
    as (reply & Hr & _ & Hiff & Hthen).
  assert (H500 : reply_status reply = 500).
  { apply Hiff. right. split; [reflexivity | ]. intros w. vm_compute. discriminate. }
  exists reply. split; [exact Hr | split; [exact H500 | ]].
  exact (proj1 (Hthen H500)).
Defined.

Lemma health_only_observes_witness :
  get_prop (VObj [("ok", VBool true); ("xrpl_connected", VBool true);
                  ("hot_wallet", VStr "rHOT"); ("inflight", VNum 2)]) "inflight"
  = VNum (inFlight busy).
Proof.
  apply (proj2 (proj2 (proj2 (health_only_observes world_success cfg Cases.fromSeed busy)))
           (mkReply 200 (VObj [("ok", VBool true); ("xrpl_connected", VBool true);
                               ("hot_wallet", VStr "rHOT"); ("inflight", VNum 2)]))).
  - reflexivity.
  - reflexivity.
Defined.

Lemma health_loads_wallet_once_witness :
  wallet (snd (health world_success cfg Cases.fromSeed booted)) = Some (mkWallet "rHOT") /\
  exists w,
    wallet (snd (health world_success cfg Cases.fromSeed cold)) = Some w /\
    (wallet cold = None -> Cases.fromSeed (env_value (XRP_HOT_WALLET_SEED cfg)) = Ok w) /\
    get_prop (VObj [("ok", VBool true); ("xrpl_connected", VBool true);
                    ("hot_wallet", VStr "rHOT"); ("inflight", VNum 0)]) "hot_wallet"
    = js_or (VStr (classicAddress w)) VNull.
Proof.
  split.
  - apply (proj1 (health_loads_wallet_once world_success cfg Cases.fromSeed booted)).
    reflexivity.
  - apply (proj2 (health_loads_wallet_once world_success cfg Cases.fromSeed cold)
             (mkReply 200 (VObj [("ok", VBool true); ("xrpl_connected", VBool true);
                                 ("hot_wallet", VStr "rHOT"); ("inflight", VNum 0)]))).
    + reflexivity.
    + reflexivity.
Defined.

Lemma health_survives_unreachable_ledger_witness :
  ensureEnv cfg_down = Ok tt /\
  outcome_of (connectClient world_success cfg_down) fresh
  = Throw (Error "No XRPL server reachable") /\
  exists reply,
    outcome_of (health world_success cfg_down Cases.fromSeed) fresh = Ok reply /\
    reply_status reply = 200 /\
    get_prop (reply_json reply) "xrpl_connected" = VBool false /\
    get_prop (reply_json reply) "ok" = VBool true.
Proof.
  split; [reflexivity | split; [reflexivity | ]].
  apply (health_survives_unreachable_ledger world_success cfg_down Cases.fromSeed fresh
           (mkWallet "rHOT") (Error "No XRPL server reachable")); reflexivity.
Defined.

Lemma boot_always_starts_polling_witness :
  polling_period world_success cfg = VNum 5000.
Proof.
  apply (proj2 (proj2 (proj2
           (boot_always_starts_polling world_success cfg Cases.fromSeed (VNum 3000) cold)))).
  reflexivity.
Defined.

Lemma boot_wallet_witness :
  wallet (snd (boot world_success cfg Cases.fromSeed (VNum 3000) cold))
  = Some (mkWallet "rHOT") /\
  wallet (snd (boot world_success cfg_no_webhook Cases.fromSeed (VNum 3000) cold)) = None.
Proof.
  split.
  - apply (proj1 (boot_wallet world_success cfg Cases.fromSeed (VNum 3000) cold)
             (mkWallet "rHOT")); reflexivity.
  - apply (proj1 (proj2 (boot_wallet world_success cfg_no_webhook Cases.fromSeed
                           (VNum 3000) cold))
             (Error "SUPABASE_WEBHOOK_URL missing")).
    left. reflexivity.
Defined.


Lemma poll_then_complete_restores_counter_witness :
  cap world_four_rows cfg = VNum 2 /\
  pending booted = [] /\
  inFlight (snd ((pollLoop world_four_rows cfg ;; complete_pending world_four_rows cfg)
                   booted)) = inFlight booted.
Proof.
  split; [reflexivity | split; [reflexivity | ]].
  destruct (poll_then_complete_restores_counter world_four_rows cfg booted 2 eq_refl)
    as (_ & _ & _ & H).
  exact (H eq_refl).
Defined.

Lemma pollLoop_without_numeric_cap_witness :
  cap world_four_rows cfg_no_cap = VNaN /\
  pending (snd (pollLoop world_four_rows cfg_no_cap busy)) = [r1; r2; r3] /\
  inFlight (snd (pollLoop world_four_rows cfg_no_cap busy)) = 5.
Proof.
  split; [reflexivity | ].
  destruct (pollLoop_without_numeric_cap world_four_rows cfg_no_cap busy
              [r1; VNull; r2; r3] eq_refl eq_refl eq_refl) as (_ & _ & Hp & Hi).
  split; [exact Hp | exact Hi].
Defined.

Lemma pollLoop_backend_failure_witness :
  cap world_backend_down cfg = VNum 2 /\
  pending (snd (pollLoop world_backend_down cfg booted)) = [] /\
  pending (snd (pollLoop world_object_queue cfg booted)) = [].
Proof.
  split; [reflexivity | ].
  destruct (pollLoop_backend_failure world_backend_down cfg booted 2 eq_refl eq_refl
              ltac:(reflexivity)) as (Hdown & _).
  destruct (pollLoop_backend_failure world_object_queue cfg booted 2 eq_refl eq_refl
              ltac:(reflexivity)) as (_ & Hobj).
  rewrite (Hdown (Error "Fetch queued failed: 503 upstream down") eq_refl).
  rewrite (Hobj [("message", VStr "no rows")] eq_refl).
  split; reflexivity.
Defined.

Lemma WS_DEFAULTS_entries_witness :
  In "wss://ledger.example" (WS_DEFAULTS cfg_fallback) /\
  "wss://ledger.example" <> "" /\
  trim "wss://ledger.example" = "wss://ledger.example".
Proof.
  assert (H : In "wss://ledger.example" (WS_DEFAULTS cfg_fallback)) by in_list.
  split; [exact H | ].
  destruct (WS_DEFAULTS_entries cfg_fallback "wss://ledger.example" H) as (Hne & Hs & _).
  split; [exact Hne | ].
  apply Hs. discriminate.
Defined.

Lemma blank_XRPL_SERVERS_leaves_no_endpoint_witness :
  XRPL_SERVERS cfg_blank_servers = Some " , ," /\
  XRPL_SERVER cfg_blank_servers = Some "wss://ledger.example" /\
  WS_DEFAULTS cfg_blank_servers = [] /\
  connectClient world_success cfg_blank_servers fresh
  = (Throw (Error "No XRPL server reachable"), fresh).
Proof.
  split; [reflexivity | split; [reflexivity | ]].
  apply (blank_XRPL_SERVERS_leaves_no_endpoint world_success cfg_blank_servers " , ,");
    reflexivity.
Defined.

End MoreRuns.
